(** * mcp-skeleton: tool registry, module discovery and loader, URL building
      and web navigation state

    A shallow embedding of [app/__init__.py] (ToolRegistry),
    [app/tool_loader.py] (discovery and loading), [app/tools/api_tools.py]
    (APIClient.build_url) and [app/tools/web_tools.py]
    (WebNavigator.navigate_to), with the properties the specification states
    about them.

    Python [str] values are modelled by [string]; a character is a code point
    below 256.  Exceptions are values; a computation that can raise returns a
    [result].  Mutable process state (sys.modules, the registry, the log) is
    threaded explicitly. *)

From Stdlib Require Import String Ascii List Bool Arith Lia.
From Stdlib Require Import Numbers.DecimalString.
Import ListNotations.
Open Scope string_scope.

(* ================================================================== *)
(** ** Python string operations used by the sources *)
(* ================================================================== *)

Module PyStr.

(** [s.startswith(prefix)] *)
Fixpoint startswith (prefix s : string) : bool :=
  match prefix, s with
  | EmptyString, _ => true
  | String a p, String b t => Ascii.eqb a b && startswith p t
  | String _ _, EmptyString => false
  end.

(** [s[n:]] for [n >= 0] *)
Fixpoint drop (n : nat) (s : string) : string :=
  match n, s with
  | 0, _ => s
  | S n', String _ t => drop n' t
  | S _, EmptyString => EmptyString
  end.

(** [s[:n]] for [n >= 0] *)
Fixpoint take (n : nat) (s : string) : string :=
  match n, s with
  | 0, _ => EmptyString
  | S n', String a t => String a (take n' t)
  | S _, EmptyString => EmptyString
  end.

(** [s.endswith(suffix)]: the last [len(suffix)] characters are compared. *)
Definition endswith (suffix s : string) : bool :=
  Nat.leb (String.length suffix) (String.length s) &&
  String.eqb (drop (String.length s - String.length suffix) s) suffix.

(** [s[:-n]] for [n > 0]: everything but the last [n] characters (the empty
    string when [s] is shorter). *)
Definition slice_to_neg (n : nat) (s : string) : string :=
  take (String.length s - n) s.

(** [s.lstrip(chars)], the character set given as a predicate. *)
Fixpoint lstrip (p : ascii -> bool) (s : string) : string :=
  match s with
  | EmptyString => EmptyString
  | String a t => if p a then lstrip p t else s
  end.

(** [s.rstrip(chars)] *)
Fixpoint rstrip (p : ascii -> bool) (s : string) : string :=
  match s with
  | EmptyString => EmptyString
  | String a t =>
      match rstrip p t with
      | EmptyString => if p a then EmptyString else String a EmptyString
      | r => String a r
      end
  end.

(** [str.isspace] on one character, for code points below 256. *)
Definition isspace (a : ascii) : bool :=
  let n := nat_of_ascii a in
  (((9 <=? n) && (n <=? 13)) || ((28 <=? n) && (n <=? 32))
   || (n =? 133) || (n =? 160))%nat.

(** [s.strip()] *)
Definition strip (s : string) : string := lstrip isspace (rstrip isspace s).

(** [s.split(sep)] for a one-character separator: one more piece than there
    are separators, empty pieces kept. *)
Fixpoint split (sep : ascii) (s : string) : list string :=
  match s with
  | EmptyString => [EmptyString]
  | String a t =>
      if Ascii.eqb a sep then EmptyString :: split sep t
      else match split sep t with
           | h :: r => String a h :: r
           | [] => [String a EmptyString]
           end
  end.

(** [str(n)] for a non-negative integer. *)
Definition str_of_nat (n : nat) : string :=
  NilZero.string_of_uint (Nat.to_uint n).

(** A run of [n] copies of one character. *)
Fixpoint run (a : ascii) (n : nat) : string :=
  match n with
  | 0 => EmptyString
  | S k => String a (run a k)
  end.

Definition is_slash (a : ascii) : bool := Ascii.eqb a "/"%char.

End PyStr.

(* ================================================================== *)
(** ** app/tools/api_tools.py *)
(* ================================================================== *)

Module ApiTools.
Import PyStr.

(** The fields of [APIClient] that [build_url] reads. *)
Record APIClient := mkAPIClient {
  base_url : string;
  api_key : string;
  api_key_header : string
}.

(** [x or y] on an optional string: [None] and [""] are falsy. *)
Definition str_or (x : option string) (y : string) : string :=
  match x with
  | Some s => if String.eqb s "" then y else s
  | None => y
  end.

(** [APIClient.__init__]; [environ] is [os.environ]. *)
Definition APIClient_init (environ : string -> option string)
    (base_url api_key : option string) (api_key_header : string) : APIClient :=
  let env_get k := match environ k with Some v => v | None => "" end in
  mkAPIClient (str_or base_url (env_get "API_BASE_URL"))
              (str_or api_key (env_get "API_KEY"))
              api_key_header.

(** [endpoint.startswith(('http://', 'https://'))] *)
Definition is_absolute (endpoint : string) : bool :=
  startswith "http://" endpoint || startswith "https://" endpoint.

(** [APIClient.build_url] *)
Definition build_url (self : APIClient) (endpoint : string) : string :=
  if is_absolute endpoint then endpoint
  else
    let base := rstrip is_slash (base_url self) in
    let clean_endpoint := lstrip is_slash endpoint in
    base ++ "/" ++ clean_endpoint.

End ApiTools.

(* ================================================================== *)
(** ** Exceptions and results *)
(* ================================================================== *)

Module Py.

(** The exception classes the modelled code raises, catches or lets
    through. *)
Inductive exn_class :=
  | BaseException | Exception | SystemExit | KeyboardInterrupt
  | ImportError | ModuleNotFoundError
  | OSError | FileNotFoundError | PermissionError | NotADirectoryError
  | TypeError | ValueError | AttributeError | SyntaxError | RuntimeError
  | RecursionError
  | RequestException | HTTPError.

(** The direct base class. *)
Definition base (c : exn_class) : option exn_class :=
  match c with
  | BaseException => None
  | Exception | SystemExit | KeyboardInterrupt => Some BaseException
  | ImportError | OSError | TypeError | ValueError | AttributeError
  | SyntaxError | RuntimeError => Some Exception
  | ModuleNotFoundError => Some ImportError
  | FileNotFoundError | PermissionError | NotADirectoryError
  | RequestException => Some OSError
  | RecursionError => Some RuntimeError
  | HTTPError => Some RequestException
  end.

Definition class_eqb (c d : exn_class) : bool :=
  match c, d with
  | BaseException, BaseException | Exception, Exception
  | SystemExit, SystemExit | KeyboardInterrupt, KeyboardInterrupt
  | ImportError, ImportError | ModuleNotFoundError, ModuleNotFoundError
  | OSError, OSError | FileNotFoundError, FileNotFoundError
  | PermissionError, PermissionError
  | NotADirectoryError, NotADirectoryError
  | TypeError, TypeError | ValueError, ValueError
  | AttributeError, AttributeError | SyntaxError, SyntaxError
  | RuntimeError, RuntimeError | RecursionError, RecursionError
  | RequestException, RequestException
  | HTTPError, HTTPError => true
  | _, _ => false
  end.

(** [issubclass(c, d)]; the hierarchy above is at most five classes deep. *)
Fixpoint issubclass_fuel (fuel : nat) (c d : exn_class) : bool :=
  class_eqb c d ||
  match fuel, base c with
  | S k, Some b => issubclass_fuel k b d
  | _, _ => false
  end.

Definition issubclass (c d : exn_class) : bool := issubclass_fuel 5 c d.

(** An exception instance: its class and [str(e)]. *)
Record exn := Exn { exn_cls : exn_class; exn_str : string }.

(** [isinstance(e, c)], the test of an [except c] clause. *)
Definition isinstance (e : exn) (c : exn_class) : bool :=
  issubclass (exn_cls e) c.

Inductive result (A : Type) :=
  | Ok (a : A)
  | Raise (e : exn).
Arguments Ok {A} a.
Arguments Raise {A} e.

Definition raised {A} (r : result A) : bool :=
  match r with Ok _ => false | Raise _ => true end.

End Py.

(* ================================================================== *)
(** ** Objects, modules, the host and the process state *)
(* ================================================================== *)

Module Runtime.
Import PyStr Py.

(** A Python object as the loader sees it: its identity, whether it is
    callable, its [__name__] when it has one, and the keyword dictionary
    stored in its [tool_definition] attribute when it has one. *)
Record PyObj := mkObj {
  obj_id : nat;
  obj_callable : bool;
  obj_name : option string;
  obj_tool_definition : option (list (string * string))
}.

(** What importing a module finds: the file it was loaded from
    ([__file__], absent for built-in and namespace modules), the modules its
    top-level code imports, in order, the exception that code raises after
    them if it raises, and the module's attributes in the order of
    [dir(module)]. *)
Record ModuleSrc := mkModule {
  mod_file : option string;
  mod_imports : list string;
  mod_raises : option exn;
  mod_attrs : list (string * PyObj)
}.

(** Everything outside the process: the importable modules, the file
    system's directory listings, the environment variables, and the
    dispatch surface's own registration, which may reject a handler. *)
Record Host := mkHost {
  host_modules : string -> option ModuleSrc;
  host_listdir : string -> result (list string);
  host_environ : string -> option string;
  host_mcp_tool : PyObj -> option exn
}.

Inductive level := INFO | ERROR.

(** Observable actions, in the order they happen. *)
Inductive event :=
  | EvImport (name : string)    (* importlib.import_module(name) is called *)
  | EvExec (name : string)      (* the module's top-level code is executed *)
  | EvListdir (dir : string)    (* os.listdir(dir) is called *)
  | EvLog (lvl : level) (msg : string).

(** A [dict] with string keys: assignment to an existing key replaces the
    value where it stands, assignment to a new key appends. *)
Definition dict (V : Type) := list (string * V).

Fixpoint dict_set {V} (k : string) (v : V) (d : dict V) : dict V :=
  match d with
  | [] => [(k, v)]
  | (k', v') :: t =>
      if String.eqb k' k then (k', v) :: t else (k', v') :: dict_set k v t
  end.

Fixpoint dict_get {V} (k : string) (d : dict V) : option V :=
  match d with
  | [] => None
  | (k', v') :: t => if String.eqb k' k then Some v' else dict_get k t
  end.

Definition keys {V} (d : dict V) : list string := map fst d.

(** The mutable state: [sys.modules], the [ToolRegistry] instance's
    [registered_tools] and [tool_modules], the handlers the dispatch surface
    has received, and the trace of actions. *)
Record World := mkWorld {
  sys_modules : list string;
  registered_tools : dict PyObj;
  tool_modules : list string;
  mcp_tools : list PyObj;
  trace : list event
}.

Definition emit (ev : event) (w : World) : World :=
  mkWorld (sys_modules w) (registered_tools w) (tool_modules w)
          (mcp_tools w) (trace w ++ [ev]).

(** Computations over the process state that return or raise.  A raise
    keeps the state reached so far. *)
Definition M (A : Type) := World -> result A * World.

Definition ret {A} (a : A) : M A := fun w => (Ok a, w).

Definition raise {A} (e : exn) : M A := fun w => (Raise e, w).

Definition bind {A B} (m : M A) (f : A -> M B) : M B :=
  fun w =>
    match m w with
    | (Ok a, w') => f a w'
    | (Raise e, w') => (Raise e, w')
    end.

(** [try: m  except c as e: handler e] with [catches] the clause's test. *)
Definition try_except {A} (m : M A) (catches : exn -> bool)
    (handler : exn -> M A) : M A :=
  fun w =>
    match m w with
    | (Ok a, w') => (Ok a, w')
    | (Raise e, w') => if catches e then handler e w' else (Raise e, w')
    end.

Declare Scope py_scope.
Delimit Scope py_scope with py.
Notation "x <- m ;; k" := (bind m (fun x => k))
  (at level 100, m at next level, right associativity) : py_scope.
Notation "m ;;; k" := (bind m (fun _ => k))
  (at level 100, right associativity) : py_scope.
Open Scope py_scope.

(** [for x in xs: body x] *)
Fixpoint for_each {X} (xs : list X) (body : X -> M unit) : M unit :=
  match xs with
  | [] => ret tt
  | x :: t => body x ;;; for_each t body
  end.

(** A loop that carries a local variable. *)
Fixpoint for_fold {X S} (xs : list X) (body : S -> X -> M S) (s : S) : M S :=
  match xs with
  | [] => ret s
  | x :: t => s' <- body s x ;; for_fold t body s'
  end.

Definition logger_info (msg : string) : M unit :=
  fun w => (Ok tt, emit (EvLog INFO msg) w).

Definition logger_error (msg : string) : M unit :=
  fun w => (Ok tt, emit (EvLog ERROR msg) w).

Definition mem (s : string) (l : list string) : bool :=
  existsb (String.eqb s) l.

(** Whether a character occurs in a string. *)
Fixpoint has_char (c : ascii) (s : string) : bool :=
  match s with
  | EmptyString => false
  | String a t => Ascii.eqb a c || has_char c t
  end.

(** [name.rpartition('.')[0]]: the part before the last dot, empty when
    there is no dot. *)
Fixpoint parent_of (name : string) : string :=
  match name with
  | EmptyString => EmptyString
  | String a t =>
      if has_char "."%char t then String a (parent_of t) else EmptyString
  end.

(** How deeply imports may nest before Python's recursion limit is hit. *)
Definition import_depth : nat := 100.

Section WithHost.
Variable host : Host.

(** [sys.modules[name] = module] and [del sys.modules[name]] *)
Definition add_module (name : string) (w : World) : World :=
  mkWorld (name :: sys_modules w) (registered_tools w) (tool_modules w)
          (mcp_tools w) (trace w).

Definition remove_module (name : string) (w : World) : World :=
  mkWorld (filter (fun n => negb (String.eqb n name)) (sys_modules w))
          (registered_tools w) (tool_modules w) (mcp_tools w) (trace w).

(** The import machinery behind [import_module] and the import statement
    ([importlib._bootstrap._find_and_load]).  A module in [sys.modules] is
    returned at once.  Otherwise its parent package is imported first; then,
    unless that has brought the module in, the module is looked up (an
    unknown module is a [ModuleNotFoundError]), entered into [sys.modules]
    and its top-level code is executed: the modules that code imports are
    imported in order, then the code may raise.  A module whose code raises
    is taken out of [sys.modules] again; what it had imported stays.
    [depth] bounds the nesting of imports, beyond which Python raises a
    [RecursionError]. *)
Fixpoint find_and_load (depth : nat) (name : string) (w : World)
    : result unit * World :=
  match depth with
  | 0 => (Raise (Exn RecursionError
                     "maximum recursion depth exceeded"), w)
  | S k =>
      if mem name (sys_modules w) then (Ok tt, w)
      else
        let parent := parent_of name in
        match (if String.eqb parent "" then (Ok tt, w)
               else find_and_load k parent w) with
        | (Raise e, w1) => (Raise e, w1)
        | (Ok _, w1) =>
            if mem name (sys_modules w1) then (Ok tt, w1)
            else
              match host_modules host name with
              | None =>
                  (Raise (Exn ModuleNotFoundError
                              ("No module named '" ++ name ++ "'")), w1)
              | Some src =>
                  let w2 := add_module name (emit (EvExec name) w1) in
                  match for_each (mod_imports src) (find_and_load k) w2 with
                  | (Raise e, w3) => (Raise e, remove_module name w3)
                  | (Ok _, w3) =>
                      match mod_raises src with
                      | Some e => (Raise e, remove_module name w3)
                      | None => (Ok tt, w3)
                      end
                  end
              end
        end
  end.

(** [importlib.import_module(name)], called without a package: a relative
    name is a [TypeError], an empty name a [ValueError]; otherwise the
    module is imported as above and [sys.modules[name]] is returned. *)
Definition import_module (name : string) : M ModuleSrc :=
  fun w =>
    let w1 := emit (EvImport name) w in
    if startswith "." name then
      (Raise (Exn TypeError
                  ("the 'package' argument is required to perform a "
                   ++ "relative import for '" ++ name ++ "'")), w1)
    else if String.eqb name "" then
      (Raise (Exn ValueError "Empty module name"), w1)
    else
      match find_and_load import_depth name w1 with
      | (Raise e, w2) => (Raise e, w2)
      | (Ok _, w2) =>
          match host_modules host name with
          | Some src => (Ok src, w2)
          | None =>
              (Raise (Exn ModuleNotFoundError
                          ("No module named '" ++ name ++ "'")), w2)
          end
      end.

(** [inspect.getfile(module)] *)
Definition getfile (name : string) (m : ModuleSrc) : M string :=
  match mod_file m with
  | Some f => if String.eqb f "" then
                raise (Exn TypeError
                           ("<module '" ++ name ++ "'> is a built-in module"))
              else ret f
  | None => raise (Exn TypeError
                       ("<module '" ++ name ++ "'> is a built-in module"))
  end.

(** [os.listdir(dir)] *)
Definition listdir (dir : string) : M (list string) :=
  fun w => (host_listdir host dir, emit (EvListdir dir) w).

(** [os.environ.get(key, default)] *)
Definition environ_get (key default : string) : string :=
  match host_environ host key with
  | Some v => v
  | None => default
  end.

End WithHost.

(** [os.path.dirname] (posixpath): the part before the last slash, with its
    trailing slashes removed unless it consists of slashes only. *)
Fixpoint dirname_head (p : string) : string :=
  match p with
  | EmptyString => EmptyString
  | String a t =>
      match dirname_head t with
      | EmptyString =>
          if is_slash a then String a EmptyString else EmptyString
      | h => String a h
      end
  end.

Definition dirname (p : string) : string :=
  let head := dirname_head p in
  match lstrip is_slash head with
  | EmptyString => head
  | _ => rstrip is_slash head
  end.

End Runtime.

(* ================================================================== *)
(** ** app/__init__.py: ToolRegistry and the tool_definition decorator *)
(* ================================================================== *)

Module ToolRegistry.
Import PyStr Py Runtime.

(** [ToolRegistry.__init__]: an empty registry in a fresh process. *)
Definition init : World := mkWorld [] [] [] [] [].

(** The decorator [tool_definition] applied with keyword arguments [kwargs]
    to [func]: the same object, with the keyword dictionary attached. *)
Definition tool_definition (kwargs : list (string * string)) (func : PyObj)
    : PyObj :=
  mkObj (obj_id func) (obj_callable func) (obj_name func) (Some kwargs).

Section WithHost.
Variable host : Host.

(** [func.__name__] *)
Definition dunder_name (func : PyObj) : M string :=
  match obj_name func with
  | Some n => ret n
  | None => raise (Exn AttributeError "object has no attribute '__name__'")
  end.

(** [self.mcp.tool()(func)]: the dispatch surface records the handler and
    hands it back, or raises. *)
Definition mcp_tool (func : PyObj) : M PyObj :=
  fun w =>
    match host_mcp_tool host func with
    | Some e => (Raise e, w)
    | None =>
        (Ok func,
         mkWorld (sys_modules w) (registered_tools w) (tool_modules w)
                 (mcp_tools w ++ [func]) (trace w))
    end.

Definition store_tool (tool_name : string) (func : PyObj) : M unit :=
  fun w =>
    (Ok tt,
     mkWorld (sys_modules w) (dict_set tool_name func (registered_tools w))
             (tool_modules w) (mcp_tools w) (trace w)).

(** [ToolRegistry.register_tool] *)
Definition register_tool (func : PyObj) (name : option string) : M PyObj :=
  tool_name <- match name with
               | Some n => if String.eqb n "" then dunder_name func else ret n
               | None => dunder_name func
               end ;;
  store_tool tool_name func ;;;
  mcp_tool func.

Definition append_tool_module (module_name : string) : M unit :=
  fun w =>
    (Ok tt,
     mkWorld (sys_modules w) (registered_tools w)
             (tool_modules w ++ [module_name]) (mcp_tools w) (trace w)).

(** The body of the loop over [dir(module)]. *)
Definition register_if_tool (entry : string * PyObj) : M unit :=
  let attr := snd entry in
  match obj_tool_definition attr with
  | Some kwargs =>
      if obj_callable attr then
        register_tool attr (dict_get "name" kwargs) ;;; ret tt
      else ret tt
  | None => ret tt
  end.

(** [ToolRegistry.load_tools_from_module] *)
Definition load_tools_from_module (module_name : string) : M unit :=
  try_except
    (module <- import_module host module_name ;;
     append_tool_module module_name ;;;
     for_each (mod_attrs module) register_if_tool ;;;
     logger_info ("Loaded tools from module: " ++ module_name))
    (fun e => isinstance e ImportError)
    (fun e =>
       logger_error ("Error loading tool module " ++ module_name ++ ": "
                     ++ exn_str e)).

End WithHost.
End ToolRegistry.

(* ================================================================== *)
(** ** app/tool_loader.py *)
(* ================================================================== *)

Module ToolLoader.
Import PyStr Py Runtime ToolRegistry.

Definition default_tool_modules : string :=
  "app.tools.http_tools,app.tools.web_tools,app.tools.api_tools".

Section WithHost.
Variable host : Host.

(** One iteration of the loop of [load_tool_modules]. *)
Definition load_one (loaded_count : nat) (module_path : string) : M nat :=
  try_except
    (load_tools_from_module host (strip module_path) ;;;
     ret (loaded_count + 1))
    (fun e => isinstance e Exception)
    (fun e =>
       logger_error ("Failed to load tool module " ++ module_path ++ ": "
                     ++ exn_str e) ;;;
       ret loaded_count).

(** [load_tool_modules(module_paths)] *)
Definition load_tool_modules (module_paths : option (list string)) : M nat :=
  let module_paths :=
    match module_paths with
    | None =>
        let module_paths_str :=
          environ_get host "MCP_TOOL_MODULES" default_tool_modules in
        if String.eqb module_paths_str "" then []
        else split ","%char module_paths_str
    | Some l => l
    end in
  loaded_count <- for_fold module_paths load_one 0 ;;
  logger_info ("Loaded " ++ str_of_nat loaded_count ++ " tool modules") ;;;
  ret loaded_count.

(** The test of the loop of [discover_tool_modules]. *)
Definition is_tool_file (file : string) : bool :=
  endswith ".py" file && negb (startswith "__" file).

(** The body of that loop, on the list being built. *)
Definition discover_step (package_path : string)
    (discovered_modules : list string) (file : string) : M (list string) :=
  if is_tool_file file then
    let module_name := slice_to_neg 3 file in
    let full_module_path := package_path ++ "." ++ module_name in
    ret (discovered_modules ++ [full_module_path])%list
  else ret discovered_modules.

(** [discover_tool_modules(package_path)].  The list is appended to only by
    the loop, which cannot raise, so the handler returns the list as it was
    before the [try]: empty. *)
Definition discover_tool_modules (package_path : string) : M (list string) :=
  try_except
    (package <- import_module host package_path ;;
     file <- getfile package_path package ;;
     files <- listdir host (dirname file) ;;
     discovered_modules <- for_fold files (discover_step package_path) [] ;;
     logger_info ("Discovered "
                  ++ str_of_nat (List.length discovered_modules)
                  ++ " tool modules in " ++ package_path) ;;;
     ret discovered_modules)
    (fun e => isinstance e ImportError || isinstance e FileNotFoundError)
    (fun e =>
       logger_error ("Error discovering modules in " ++ package_path ++ ": "
                     ++ exn_str e) ;;;
       ret []).

(** [auto_discover_and_load_tools()] *)
Definition auto_discover_and_load_tools : M nat :=
  module_paths <- discover_tool_modules "app.tools" ;;
  load_tool_modules (Some module_paths).

End WithHost.
End ToolLoader.

(* ================================================================== *)
(** ** app/tools/web_tools.py: WebNavigator *)
(* ================================================================== *)

Module WebTools.
Import PyStr Py.

(** The navigator's own fields. *)
Record WebNavigator := mkNav {
  current_url : option string;
  history : list string
}.

(** [WebNavigator.__init__] *)
Definition WebNavigator_init : WebNavigator := mkNav None [].

(** What the code uses of the response: the status with its reason and
    the final URL (for the message of [raise_for_status]) and the text. *)
Record Response := mkResponse {
  status_code : nat;
  reason : string;
  final_url : string;
  text : string
}.

(** A tag of the parsed page: [tag.get_text("\n", strip=True)] and
    [str(tag)], either of which may raise (both walk the tag's subtree). *)
Record Tag := mkTag { tag_text : result string; tag_html : result string }.

(** What the code reads from the parsed page: [soup.title] with its
    [.string] (which may raise), the four candidates for the main content,
    and for every [<a href=...>] its [href] and [get_text()] (collecting
    which may raise). *)
Record Soup := mkSoup {
  soup_title : option (result (option string));
  soup_main : option Tag;
  soup_article : option Tag;
  soup_div_content : option Tag;
  soup_body : option Tag;
  soup_anchors : result (list (string * string))
}.

(** The network and the libraries: [session.get], [BeautifulSoup(text,
    "html.parser")] and [urllib.parse.urljoin] (which raises ValueError on
    a malformed base). *)
Record Net := mkNet {
  session_get : string -> result Response;
  parse_html : string -> result Soup;
  urljoin : string -> string -> result string
}.

Record Link := mkLink { link_text : string; link_url : string }.

Record Page := mkPage {
  page_url : string;
  page_title : option string;
  page_content : string;
  page_links : list Link;
  page_html : string
}.

(** The dictionaries [navigate_to] returns. *)
Inductive NavResult :=
  | NoBaseError (error : string)
  | RequestError (error : string) (url : string)
  | PageResult (page : Page).


(** [response.raise_for_status()] *)
Definition raise_for_status (r : Response) : result unit :=
  if ((400 <=? status_code r) && (status_code r <? 500))%nat then
    Raise (Exn HTTPError
               (str_of_nat (status_code r) ++ " Client Error: "
                ++ reason r ++ " for url: " ++ final_url r))
  else if ((500 <=? status_code r) && (status_code r <? 600))%nat then
    Raise (Exn HTTPError
               (str_of_nat (status_code r) ++ " Server Error: "
                ++ reason r ++ " for url: " ++ final_url r))
  else Ok tt.

Definition truthy (s : option string) : bool :=
  match s with
  | Some v => negb (String.eqb v "")
  | None => false
  end.

(** [a or b] on optional tags; a tag is always truthy. *)
Definition tag_or (a b : option Tag) : option Tag :=
  match a with Some _ => a | None => b end.

(** The loop that collects the links. *)
Fixpoint extract_links (anchors : list (string * string)) : list Link :=
  match anchors with
  | [] => []
  | (href, txt) :: t =>
      let text := strip txt in
      if negb (String.eqb text "") && negb (String.eqb href "") then
        mkLink text href :: extract_links t
      else extract_links t
  end.

(** The first part of the [try] block: fetch, check the status, parse. *)
Definition fetch_and_parse (net : Net) (full_url : string) : result Soup :=
  match session_get net full_url with
  | Raise e => Raise e
  | Ok response =>
      match raise_for_status response with
      | Raise e => Raise e
      | Ok _ => parse_html net (text response)
      end
  end.

(** The [try] block up to the state update (lines 44-63): fetch, status
    check, parse, choice of the main content, and the links. *)
Definition before_update (net : Net) (full_url : string)
    : result (Soup * option Tag * list Link) :=
  match fetch_and_parse net full_url with
  | Raise e => Raise e
  | Ok soup =>
      let main_content :=
        tag_or (soup_main soup)
          (tag_or (soup_article soup)
             (tag_or (soup_div_content soup) (soup_body soup))) in
      match soup_anchors soup with
      | Raise e => Raise e
      | Ok anchors => Ok (soup, main_content, extract_links anchors)
      end
  end.

(** The state update of lines 66-68. *)
Definition visit (self : WebNavigator) (full_url : string) : WebNavigator :=
  mkNav (Some full_url)
        (if existsb (String.eqb full_url) (history self)
         then history self
         else (history self ++ [full_url])%list).

(** The dictionary of lines 71-77, its values computed in the order they
    are written: title, content, links, html. *)
Definition page_dict (full_url : string) (soup : Soup)
    (main_content : option Tag) (links : list Link) : result Page :=
  match (match soup_title soup with
         | Some s => s
         | None => Ok (Some "No title")
         end) with
  | Raise e => Raise e
  | Ok title =>
      match (match main_content with
             | Some t => tag_text t
             | None => Ok ""
             end) with
      | Raise e => Raise e
      | Ok content =>
          match (match main_content with
                 | Some t => tag_html t
                 | None => Ok ""
                 end) with
          | Raise e => Raise e
          | Ok html => Ok (mkPage full_url title content (firstn 20 links) html)
          end
      end
  end.

(** [BaseClient._handle_request_error]; the message it logs is returned
    with the dictionary. *)
Definition _handle_request_error (error : exn) (url : string)
    : NavResult * list string :=
  (RequestError (exn_str error) url,
   ["Error in request to " ++ url ++ ": " ++ exn_str error]).

(** Lines 36-41.  The URL [navigate_to] goes to: the URL itself when it is
    absolute, else joined to the base URL or, failing that, the current
    URL; [Ok None] when there is neither, which is the early return of line
    41.  [urljoin] is called outside the [try], so what it raises leaves
    the method. *)
Definition resolve_url (net : Net) (self : WebNavigator) (url : string)
    (base_url : option string) : result (option string) :=
  if negb (startswith "http://" url || startswith "https://" url) then
    if truthy base_url || truthy (current_url self) then
      let b := if truthy base_url then base_url else current_url self in
      match b with
      | Some b' =>
          match urljoin net b' url with
          | Ok full_url => Ok (Some full_url)
          | Raise e => Raise e
          end
      | None => Ok None
      end
    else Ok None
  else Ok (Some url).

(** [except Exception as e: return self._handle_request_error(e, url)],
    for an exception raised when the navigator is [self]. *)
Definition on_exception (e : exn) (full_url : string) (self : WebNavigator)
    : result NavResult * WebNavigator * list string :=
  if isinstance e Exception then
    let '(r, logged) := _handle_request_error e full_url in
    (Ok r, self, logged)
  else (Raise e, self, []).

(** [WebNavigator.navigate_to]: the returned dictionary (or the exception
    that [except Exception] does not catch), the navigator after the call,
    and the messages logged at error level.  The state is updated inside
    the [try] block, before the dictionary to return is built. *)
Definition navigate_to (net : Net) (self : WebNavigator) (url : string)
    (base_url : option string)
    : result NavResult * WebNavigator * list string :=
  match resolve_url net self url base_url with
  | Raise e => (Raise e, self, [])
  | Ok None =>
      (Ok (NoBaseError "Cannot resolve relative URL without a base URL"),
       self, [])
  | Ok (Some full_url) =>
      match before_update net full_url with
      | Raise e => on_exception e full_url self
      | Ok (soup, main_content, links) =>
          let self' := visit self full_url in
          match page_dict full_url soup main_content links with
          | Raise e => on_exception e full_url self'
          | Ok page => (Ok (PageResult page), self', [])
          end
      end
  end.

End WebTools.

(* ================================================================== *)
(** ** Concrete hosts and inputs *)
(* ================================================================== *)

Module Scenarios.
Import PyStr Py Runtime ToolRegistry ToolLoader.

(** A tagged function [foo], as [@tool_definition(name="foo")] leaves it. *)
Definition a_foo : PyObj :=
  tool_definition [("name", "foo"); ("description", "a tool")]
    (mkObj 1 true (Some "foo") None).

(** A plain function, not tagged. *)
Definition b_bar : PyObj := mkObj 2 true (Some "bar") None.

(** A module's [__doc__]: neither callable nor tagged. *)
Definition a_doc : PyObj := mkObj 3 false None None.

Definition ping : PyObj := mkObj 4 true (Some "ping") None.

Definition pong : PyObj := mkObj 5 true (Some "pong") None.

Definition tools_init : string := "/srv/app/tools/__init__.py".

Definition pkg_tools : ModuleSrc := mkModule (Some tools_init) [] None [].

Definition mod_a : ModuleSrc :=
  mkModule (Some "/srv/app/tools/a.py") ["app"] None
           [("__doc__", a_doc); ("foo", a_foo)].

Definition mod_b : ModuleSrc :=
  mkModule (Some "/srv/app/tools/b.py") ["app"] None
           [("__doc__", a_doc); ("bar", b_bar)].

Definition mod_only : ModuleSrc :=
  mkModule (Some "/srv/pkg/only.py") ["app"] None
           [("ping", tool_definition [] ping)].

(** The packages [app] and [pkg] themselves. *)
Definition pkg_app : ModuleSrc :=
  mkModule (Some "/srv/app/__init__.py") [] None [].

Definition pkg_pkg : ModuleSrc :=
  mkModule (Some "/srv/pkg/__init__.py") [] None [].

Definition two_modules (name : string) : option ModuleSrc :=
  if String.eqb name "app" then Some pkg_app
  else if String.eqb name "pkg" then Some pkg_pkg
  else if String.eqb name "app.tools" then Some pkg_tools
  else if String.eqb name "app.tools.a" then Some mod_a
  else if String.eqb name "app.tools.b" then Some mod_b
  else if String.eqb name "pkg.only" then Some mod_only
  else None.

Definition tools_listing (dir : string) : result (list string) :=
  if String.eqb dir "/srv/app/tools" then
    Ok ["a.py"; "b.py"; "__init__.py"]
  else Raise (Exn FileNotFoundError
                  ("[Errno 2] No such file or directory: '" ++ dir ++ "'")).

Definition no_environ (key : string) : option string := None.

Definition accept_all (func : PyObj) : option exn := None.

(** The namespace of the specification's scenario: [a.py] with one tagged
    function, [b.py] with none, and the initializer. *)
Definition host_ab : Host :=
  mkHost two_modules tools_listing no_environ accept_all.

(** The same namespace with [MCP_TOOL_MODULES] set. *)
Definition environ_only (key : string) : option string :=
  if String.eqb key "MCP_TOOL_MODULES" then Some "pkg.only" else None.

Definition host_override : Host :=
  mkHost two_modules tools_listing environ_only accept_all.

(** The same namespace with a directory that exists but may not be read. *)
Definition permission_denied : exn :=
  Exn PermissionError "[Errno 13] Permission denied: '/srv/app/tools'".

Definition locked_listing (dir : string) : result (list string) :=
  Raise permission_denied.

Definition host_locked : Host :=
  mkHost two_modules locked_listing no_environ accept_all.

(** A process in which [app] has been imported and nothing else has
    happened. *)
Definition started : World := mkWorld ["app"] [] [] [] [].


(** A network that serves one small page for every URL. *)
Definition small_page : WebTools.Soup :=
  WebTools.mkSoup (Some (Ok (Some "Home"))) None None None
    (Some (WebTools.mkTag (Ok "Hello") (Ok "<body>Hello</body>")))
    (Ok [("/about", " About "); ("/empty", "  ")]).

Definition net_static : WebTools.Net :=
  WebTools.mkNet
    (fun url => Ok (WebTools.mkResponse 200 "OK" url "<html/>"))
    (fun _ => Ok small_page)
    (fun base url => Ok (base ++ url)).



(** A navigator that has visited one page. *)
Definition visited_once : WebTools.WebNavigator :=
  WebTools.mkNav (Some "https://example.com/")
                 ["https://example.com/"].

End Scenarios.

(* ================================================================== *)
(** ** Vocabulary of the properties *)
(* ================================================================== *)

Module Spec.
Import PyStr Py Runtime ToolRegistry ToolLoader.

(** A directory entry that counts as a source file of the namespace: its
    name ends in ".py" and does not begin with the reserved prefix. *)
Definition source_file (f : string) : Prop :=
  (exists base, f = base ++ ".py") /\ ~ (exists rest, f = "__" ++ rest).

(** [picks P l k]: [k] lists, in order, exactly the elements of [l] that
    satisfy [P]. *)
Inductive picks {A} (P : A -> Prop) : list A -> list A -> Prop :=
  | picks_nil : picks P [] []
  | picks_keep x l k : P x -> picks P l k -> picks P (x :: l) (x :: k)
  | picks_skip x l k : ~ P x -> picks P l k -> picks P (x :: l) k.

(** The module path of a source file inside a package. *)
Definition module_path_of (package_path f p : string) : Prop :=
  exists base, f = base ++ ".py" /\ p = package_path ++ "." ++ base.

(** How often the top-level code of module [m] was executed. *)
Fixpoint execs_of (m : string) (tr : list event) : nat :=
  match tr with
  | [] => 0
  | EvExec n :: t => (if String.eqb n m then 1 else 0) + execs_of m t
  | _ :: t => execs_of m t
  end.

(** How often [m] occurs in a list of module paths. *)
Fixpoint occurrences (m : string) (l : list string) : nat :=
  match l with
  | [] => 0
  | n :: t => (if String.eqb n m then 1 else 0) + occurrences m t
  end.

(** The names [importlib.import_module] was called with. *)
Fixpoint imports_of (tr : list event) : list string :=
  match tr with
  | [] => []
  | EvImport n :: t => n :: imports_of t
  | _ :: t => imports_of t
  end.

(** The directories [os.listdir] was called with. *)
Fixpoint listdirs_of (tr : list event) : list string :=
  match tr with
  | [] => []
  | EvListdir d :: t => d :: listdirs_of t
  | _ :: t => listdirs_of t
  end.

(** The outcome of each load attempt of [load_tool_modules], in order: what
    the call of [load_tools_from_module] returned or raised in the state the
    loop had reached. *)
Fixpoint load_attempts (host : Host) (module_paths : list string) (w : World)
    : list (result unit) :=
  match module_paths with
  | [] => []
  | p :: t =>
      fst (load_tools_from_module host (strip p) w)
      :: load_attempts host t (snd (load_one host 0 p w))
  end.

(** Discovery cannot resolve the namespace or list its directory: the
    import of the package raises, or the imported package has no file to
    locate it by, or the listing of its directory raises. *)
Inductive discovery_failure (host : Host) (w : World) (package_path : string)
    : exn -> Prop :=
  | fail_import e :
      fst (import_module host package_path w) = Raise e ->
      discovery_failure host w package_path e
  | fail_getfile package e :
      fst (import_module host package_path w) = Ok package ->
      fst (getfile package_path package w) = Raise e ->
      discovery_failure host w package_path e
  | fail_listdir package file e :
      fst (import_module host package_path w) = Ok package ->
      fst (getfile package_path package w) = Ok file ->
      host_listdir host (dirname file) = Raise e ->
      discovery_failure host w package_path e.

(** The test of the [except] clause of [discover_tool_modules]. *)
Definition discovery_catches (e : exn) : bool :=
  isinstance e ImportError || isinstance e FileNotFoundError.

(** The module path the loop builds for a file. *)
Definition built_path (package_path file : string) : string :=
  package_path ++ "." ++ slice_to_neg 3 file.

(** What the [except] clause of discovery does with an exception. *)
Definition discovery_handler (package_path : string) (e : exn) (w : World)
    : result (list string) * World :=
  if discovery_catches e then
    (Ok [],
     emit (EvLog ERROR ("Error discovering modules in " ++ package_path
                        ++ ": " ++ exn_str e)) w)
  else (Raise e, w).

(** The part of a trace one load attempt of module [name] adds after the
    call of [import_module]: no further call of [import_module] and no
    directory listing. *)
Definition load_footprint (name : string) (evs : list event) : Prop :=
  imports_of evs = [] /\ listdirs_of evs = [].

(** [w'] is [w] after the import machinery has run and added [evs] to the
    trace: registry, loaded modules and dispatch surface are untouched,
    [evs] holds no call of [import_module] and no directory listing, what
    was in [sys.modules] still is, and what has come into it has been
    executed. *)
Definition imported (w w' : World) (evs : list event) : Prop :=
  registered_tools w' = registered_tools w
  /\ tool_modules w' = tool_modules w
  /\ mcp_tools w' = mcp_tools w
  /\ trace w' = (trace w ++ evs)%list
  /\ imports_of evs = [] /\ listdirs_of evs = []
  /\ (forall m, mem m (sys_modules w) = true -> mem m (sys_modules w') = true)
  /\ (forall m, mem m (sys_modules w') = true ->
               mem m (sys_modules w) = true \/ 0 < execs_of m evs).

(** The same host with other environment variables. *)
Definition set_environ (host : Host) (environ : string -> option string)
    : Host :=
  mkHost (host_modules host) (host_listdir host) environ
         (host_mcp_tool host).

(** The module paths [load_tool_modules] reads from a set
    [MCP_TOOL_MODULES]. *)
Definition configured_paths (value : string) : list string :=
  if String.eqb value "" then [] else split ","%char value.

(** An outcome that [except Exception] lets the loop survive. *)
Definition survivable {A} (r : result A) : Prop :=
  match r with
  | Ok _ => True
  | Raise e => isinstance e Exception = true
  end.

Definition not_raised {A} (r : result A) : bool := negb (raised r).

(** A sequence of [register_tool] calls, each made whatever the previous
    one returned or raised. *)
Fixpoint register_all (host : Host) (calls : list (PyObj * option string))
    (w : World) : World :=
  match calls with
  | [] => w
  | (func, name) :: t =>
      register_all host t (snd (register_tool host func name w))
  end.

(** The name [register_tool] files a handler under. *)
Definition registered_name (func : PyObj) (name : option string)
    : option string :=
  match name with
  | Some n => if String.eqb n "" then obj_name func else Some n
  | None => obj_name func
  end.

End Spec.

(* ================================================================== *)
(** ** Vocabulary for the loader: the tools of a module *)
(* ================================================================== *)

Module Registrations.
Import PyStr Py Runtime ToolRegistry ToolLoader Spec.

(** The test [callable(attr) and hasattr(attr, 'tool_definition')]. *)
Definition is_tool (attr : PyObj) : bool :=
  obj_callable attr &&
  match obj_tool_definition attr with Some _ => true | None => false end.

(** [attr.tool_definition.get('name')] *)
Definition declared_name (attr : PyObj) : option string :=
  match obj_tool_definition attr with
  | Some kwargs => dict_get "name" kwargs
  | None => None
  end.

(** The name a tagged attribute is filed under. *)
Definition tool_name (attr : PyObj) : option string :=
  registered_name attr (declared_name attr).

(** The attributes of a module the loader registers, in [dir()] order. *)
Definition tools_of (m : ModuleSrc) : list PyObj :=
  filter is_tool (map snd (mod_attrs m)).

(** The registry after the assignments [d[tool_name f] = f] for each [f],
    in order. *)
Fixpoint file_all (tools : list PyObj) (d : dict PyObj) : dict PyObj :=
  match tools with
  | [] => d
  | f :: t =>
      match tool_name f with
      | Some k => file_all t (dict_set k f d)
      | None => d
      end
  end.

(** The loader can register [f]: it has a name to file it under and the
    dispatch surface takes it. *)
Definition registrable (host : Host) (f : PyObj) : Prop :=
  tool_name f <> None /\ host_mcp_tool host f = None.

End Registrations.

(* ================================================================== *)
(** ** app/__init__.py: MCPConfig *)
(* ================================================================== *)

Module Config.
Import Runtime.

Section WithAny.
(** The configuration values; Python does not restrict them ([Any]). *)
Variable Any : Type.

(** The attributes of an [MCPConfig] instance. *)
Record MCPConfig := mkConfig {
  name : Any;
  description : Any;
  port : Any;
  log_level : Any;
  additional_config : dict Any
}.

(** [MCPConfig.add_config] *)
Definition add_config (self : MCPConfig) (key : string) (value : Any)
    : MCPConfig :=
  mkConfig (name self) (description self) (port self) (log_level self)
           (dict_set key value (additional_config self)).

(** [MCPConfig.get_config]: [self.additional_config.get(key, default)] *)
Definition get_config (self : MCPConfig) (key : string) (default : Any)
    : Any :=
  match dict_get key (additional_config self) with
  | Some v => v
  | None => default
  end.

(** [d.update(other)]: every item of [other] is assigned, in order. *)
Fixpoint dict_update {V} (d other : dict V) : dict V :=
  match other with
  | [] => d
  | (k, v) :: t => dict_update (dict_set k v d) t
  end.

(** [MCPConfig.as_dict] *)
Definition as_dict (self : MCPConfig) : dict Any :=
  let config_dict :=
    [("name", name self); ("description", description self);
     ("port", port self); ("log_level", log_level self)] in
  dict_update config_dict (additional_config self).

(** The four entries [as_dict] starts from. *)
Definition base_entry (self : MCPConfig) (key : string) : option Any :=
  if String.eqb key "name" then Some (name self)
  else if String.eqb key "description" then Some (description self)
  else if String.eqb key "port" then Some (port self)
  else if String.eqb key "log_level" then Some (log_level self)
  else None.

End WithAny.
End Config.

(* ================================================================== *)
(** ** app/tools/web_tools.py: the tool functions *)
(* ================================================================== *)

Module WebPages.
Import PyStr Py WebTools.

(** [navigate(url)], on the module's navigator. *)
Definition navigate (net : Net) (web_navigator : WebNavigator) (url : string)
    : result NavResult * WebNavigator * list string :=
  navigate_to net web_navigator url None.

(** [current_page()]: the dictionary with the single key ["error"] when no
    page has been visited, else the current URL fetched again. *)
Definition current_page (net : Net) (web_navigator : WebNavigator)
    : result NavResult * WebNavigator * list string :=
  match current_url web_navigator with
  | Some u =>
      if String.eqb u "" then
        (Ok (NoBaseError
               "No page has been visited yet. Use 'navigate' first."),
         web_navigator, [])
      else navigate_to net web_navigator u None
  | None =>
      (Ok (NoBaseError "No page has been visited yet. Use 'navigate' first."),
       web_navigator, [])
  end.

(** [browse_history()] *)
Definition browse_history (web_navigator : WebNavigator) : list string :=
  history web_navigator.

(** [page_data.get("links", [])] *)
Definition links_of (page_data : NavResult) : list Link :=
  match page_data with
  | PageResult p => page_links p
  | NoBaseError _ | RequestError _ _ => []
  end.

(** [extract_links()] *)
Definition extract_links (net : Net) (web_navigator : WebNavigator)
    : result (list Link) * WebNavigator * list string :=
  let '(r, nav, logged) := current_page net web_navigator in
  (match r with
   | Ok page_data => Ok (links_of page_data)
   | Raise e => Raise e
   end, nav, logged).

(** A sequence of [navigate_to] calls on one navigator, each with its URL
    and optional base. *)
Fixpoint visit_all (net : Net) (calls : list (string * option string))
    (nav : WebNavigator) : WebNavigator :=
  match calls with
  | [] => nav
  | (url, base_url) :: t =>
      visit_all net t (snd (fst (navigate_to net nav url base_url)))
  end.

End WebPages.

(* ================================================================== *)
(** ** app/tools/api_tools.py: the request methods of APIClient *)
(* ================================================================== *)

Module ApiRequests.
Import PyStr Py ApiTools.

Section WithJson.
(** JSON values: query parameters, payloads and decoded bodies. *)
Variable Json : Type.

(** What the code uses of a [requests.Response]: the status with its
    reason and final URL, and [response.json()]. *)
Record ApiResponse := mkApiResponse {
  api_status : nat;
  api_reason : string;
  api_final_url : string;
  api_json : result Json
}.

(** The four methods of [self.session] the client calls. *)
Record Session := mkSession {
  session_get : string -> option Json -> result ApiResponse;
  session_post : string -> option Json -> result ApiResponse;
  session_put : string -> option Json -> result ApiResponse;
  session_delete : string -> result ApiResponse
}.

(** [response.raise_for_status()] *)
Definition raise_for_status (r : ApiResponse) : result unit :=
  if ((400 <=? api_status r) && (api_status r <? 500))%nat then
    Raise (Exn HTTPError
               (str_of_nat (api_status r) ++ " Client Error: "
                ++ api_reason r ++ " for url: " ++ api_final_url r))
  else if ((500 <=? api_status r) && (api_status r <? 600))%nat then
    Raise (Exn HTTPError
               (str_of_nat (api_status r) ++ " Server Error: "
                ++ api_reason r ++ " for url: " ++ api_final_url r))
  else Ok tt.

(** What a request method returns: the decoded body, or the dictionary of
    [_handle_request_error]. *)
Inductive ApiResult :=
  | ApiData (data : Json)
  | ApiError (error : string) (url : string).

(** The [try] block after the request and its [except Exception]: status
    check, decoding, and the error dictionary with the message logged. *)
Definition respond (url : string) (sent : result ApiResponse)
    : result ApiResult * list string :=
  let attempt :=
    match sent with
    | Raise e => Raise e
    | Ok response =>
        match raise_for_status response with
        | Raise e => Raise e
        | Ok _ => api_json response
        end
    end in
  match attempt with
  | Ok data => (Ok (ApiData data), [])
  | Raise e =>
      if isinstance e Exception then
        (Ok (ApiError (exn_str e) url),
         ["Error in request to " ++ url ++ ": " ++ exn_str e])
      else (Raise e, [])
  end.

(** [APIClient.get] *)
Definition get (self : APIClient) (session : Session) (endpoint : string)
    (params : option Json) : result ApiResult * list string :=
  let url := build_url self endpoint in
  respond url (session_get session url params).

(** [APIClient.post] *)
Definition post (self : APIClient) (session : Session) (endpoint : string)
    (data : option Json) : result ApiResult * list string :=
  let url := build_url self endpoint in
  respond url (session_post session url data).

(** [APIClient.put] *)
Definition put (self : APIClient) (session : Session) (endpoint : string)
    (data : option Json) : result ApiResult * list string :=
  let url := build_url self endpoint in
  respond url (session_put session url data).

(** [APIClient.delete] *)
Definition delete (self : APIClient) (session : Session) (endpoint : string)
    : result ApiResult * list string :=
  let url := build_url self endpoint in
  respond url (session_delete session url).

End WithJson.
End ApiRequests.

(* ================================================================== *)
(** ** app/tools/http_tools.py *)
(* ================================================================== *)

Module HttpTools.
Import PyStr Py Runtime.

(** [sub in s] on strings. *)
Fixpoint contains (sub s : string) : bool :=
  startswith sub s ||
  match s with
  | EmptyString => false
  | String _ t => contains sub t
  end.

Section WithValues.
(** Form data ([Any]) with its truth value, and JSON values. *)
Variable Any : Type.
Variable truthy_any : Any -> bool.
Variable Json : Type.
(** [str.upper] *)
Variable upper : string -> string.

(** The keyword arguments built for [session.request]; an absent field is
    a keyword that is not passed. *)
Record Kwargs := mkKwargs {
  kw_params : option (dict Json);
  kw_headers : option (dict string);
  kw_data : option Any;
  kw_json : option (dict Json)
}.

(** What the code uses of the response; [http_content_type] is what
    [response.headers.get('Content-Type')] finds. *)
Record HttpResponse := mkHttpResponse {
  http_status : nat;
  http_reason : string;
  http_final_url : string;
  http_headers : dict string;
  http_content_type : option string;
  http_text : string;
  http_json : result Json
}.

(** [response.raise_for_status()] *)
Definition raise_for_status (r : HttpResponse) : result unit :=
  if ((400 <=? http_status r) && (http_status r <? 500))%nat then
    Raise (Exn HTTPError
               (str_of_nat (http_status r) ++ " Client Error: "
                ++ http_reason r ++ " for url: " ++ http_final_url r))
  else if ((500 <=? http_status r) && (http_status r <? 600))%nat then
    Raise (Exn HTTPError
               (str_of_nat (http_status r) ++ " Server Error: "
                ++ http_reason r ++ " for url: " ++ http_final_url r))
  else Ok tt.

(** The dictionaries [make_request] returns. *)
Inductive HttpResult :=
  | HttpJson (status_code : nat) (headers : dict string) (data : Json)
             (url : string)
  | HttpText (status_code : nat) (headers : dict string) (text : string)
             (url : string)
  | HttpError (error : string) (url : string).

(** [if d:] on an optional dictionary: [None] and [{}] are falsy. *)
Definition if_dict {V} (d : option (dict V)) : option (dict V) :=
  match d with
  | Some (_ :: _) => d
  | _ => None
  end.

(** [if data:] *)
Definition if_data (data : option Any) : option Any :=
  match data with
  | Some x => if truthy_any x then data else None
  | None => None
  end.

(** [HTTPClient.make_request]; [request] is [self.session.request]. *)
Definition make_request
    (request : string -> string -> Kwargs -> result HttpResponse)
    (method url : string) (params : option (dict Json))
    (headers : option (dict string)) (data : option Any)
    (json_data : option (dict Json)) : result HttpResult * list string :=
  let kwargs :=
    mkKwargs (if_dict params) (if_dict headers) (if_data data)
             (if_dict json_data) in
  let attempt :=
    match request (upper method) url kwargs with
    | Raise e => Raise e
    | Ok response =>
        match raise_for_status response with
        | Raise e => Raise e
        | Ok _ =>
            let content_type :=
              match http_content_type response with
              | Some c => c
              | None => ""
              end in
            if contains "application/json" content_type then
              match http_json response with
              | Ok data =>
                  Ok (HttpJson (http_status response)
                               (http_headers response) data url)
              | Raise e => Raise e
              end
            else
              Ok (HttpText (http_status response) (http_headers response)
                           (http_text response) url)
        end
    end in
  match attempt with
  | Ok r => (Ok r, [])
  | Raise e =>
      if isinstance e RequestException then
        (Ok (HttpError (exn_str e) url),
         ["Error in request to " ++ url ++ ": " ++ exn_str e])
      else (Raise e, [])
  end.

Section Tools.
Variable request : string -> string -> Kwargs -> result HttpResponse.

(** [http_get] *)
Definition http_get (url : string) (params : option (dict Json))
    (headers : option (dict string)) :=
  make_request request "GET" url params headers None None.

(** [http_post] *)
Definition http_post (url : string) (data : option Any)
    (json_data params : option (dict Json))
    (headers : option (dict string)) :=
  make_request request "POST" url params headers data json_data.

(** [http_put] *)
Definition http_put (url : string) (data : option Any)
    (json_data params : option (dict Json))
    (headers : option (dict string)) :=
  make_request request "PUT" url params headers data json_data.

(** [http_delete] *)
Definition http_delete (url : string) (params : option (dict Json))
    (headers : option (dict string)) :=
  make_request request "DELETE" url params headers None None.

End Tools.
End WithValues.
End HttpTools.

(* ================================================================== *)
(** ** Further concrete inputs *)
(* ================================================================== *)

Module Inputs.
Import PyStr Py Runtime ToolRegistry ToolLoader Scenarios.

(** A callable without [__name__], such as a [functools.partial]. *)
Definition partial_obj : PyObj := mkObj 6 true None None.

(** A lambda. *)
Definition lambda_obj : PyObj := mkObj 7 true (Some "<lambda>") None.

(** A dispatch surface that refuses lambdas. *)
Definition reject_lambdas (func : PyObj) : option exn :=
  match obj_name func with
  | Some n =>
      if String.eqb n "<lambda>" then
        Some (Exn ValueError "You must provide a name for lambda functions")
      else None
  | None => None
  end.

Definition host_strict : Host :=
  mkHost two_modules tools_listing no_environ reject_lambdas.

End Inputs.

(* ================================================================== *)
(** ** Vocabulary for the request methods *)
(* ================================================================== *)

Module ApiSpec.
Import PyStr Py ApiTools ApiRequests.

(** The exception the [try] block of a request method ends with, when it
    does: raised by the session call, by the status check, or by the
    decoding of the body. *)
Definition api_failure {Json : Type} (sent : result (ApiResponse Json))
    (e : exn) : Prop :=
  sent = Raise e
  \/ (exists response,
        sent = Ok response /\ raise_for_status Json response = Raise e)
  \/ (exists response,
        sent = Ok response
        /\ raise_for_status Json response = Ok tt
        /\ api_json Json response = Raise e).

(** What a request method of [APIClient] gives for the URL it built and the
    outcome [sent] of the session call.  A failure that is an Exception
    becomes the error dictionary for that URL, with one error-level log
    entry, and any other failure is raised; a response that passes the
    status check and decodes gives its data, with nothing logged.  The
    status check fails, with an HTTPError, exactly for the statuses from 400
    to 599. *)
Definition reported {Json : Type} (url : string)
    (sent : result (ApiResponse Json))
    (out : result (ApiResult Json) * list string) : Prop :=
  (forall e,
     api_failure sent e ->
     out = if isinstance e Exception
           then (Ok (ApiError Json (exn_str e) url),
                 ["Error in request to " ++ url ++ ": " ++ exn_str e])
           else (Raise e, []))
  /\ (forall response data,
        sent = Ok response ->
        raise_for_status Json response = Ok tt ->
        api_json Json response = Ok data ->
        out = (Ok (ApiData Json data), []))
  /\ (forall response,
        sent = Ok response ->
        (raise_for_status Json response = Ok tt
         <-> api_status Json response < 400
             \/ 600 <= api_status Json response)
        /\ forall e, raise_for_status Json response = Raise e ->
                     exn_cls e = HTTPError).

End ApiSpec.

Module HttpSpec.
Import PyStr Py Runtime HttpTools.

Section WithValues.
Variable Any : Type.
Variable truthy_any : Any -> bool.
Variable Json : Type.
Variable upper : string -> string.





End WithValues.
End HttpSpec.

(* ================================================================== *)
(** ** Vocabulary for the navigator *)
(* ================================================================== *)

Module WebSpec.
Import PyStr Py WebTools.

(** The navigator's two fields agree: the history names no URL twice, and
    the current URL, when there is one, is in it; when there is none the
    history is empty. *)
Definition consistent (nav : WebNavigator) : Prop :=
  NoDup (history nav)
  /\ match current_url nav with
     | Some u => In u (history nav)
     | None => history nav = []
     end.

(** A link as [navigate_to] keeps it: text and target non-empty, the text
    without surrounding whitespace. *)
Definition clean_link (l : Link) : Prop :=
  link_text l <> "" /\ link_url l <> "" /\ strip (link_text l) = link_text l.

End WebSpec.

(* ================================================================== *)
(** ** Facts about the string operations *)
(* ================================================================== *)

Section StringFacts.
Import PyStr.

Lemma length_app (s t : string) :
  String.length (s ++ t) = String.length s + String.length t.
Proof. induction s as [|a s IH]; simpl; [reflexivity | now rewrite IH]. Qed.

Lemma take_drop (n : nat) (s : string) : take n s ++ drop n s = s.
Proof.
  revert s; induction n as [|n IH]; intros [|a s]; simpl; try reflexivity.
  now rewrite IH.
Qed.

Lemma drop_app (b s : string) : drop (String.length b) (b ++ s) = s.
Proof. induction b as [|a b IH]; simpl; [reflexivity | exact IH]. Qed.

Lemma take_app (b s : string) : take (String.length b) (b ++ s) = b.
Proof. induction b as [|a b IH]; simpl; [reflexivity | now rewrite IH]. Qed.

Lemma startswith_spec (p s : string) :
  startswith p s = true <-> exists r, s = p ++ r.
Proof.
  revert s; induction p as [|a p IH]; intros s; simpl.
  - split; [intros _; now exists s | reflexivity].
  - destruct s as [|b t].
    + split; [discriminate | intros [r Hr]; discriminate].
    + rewrite andb_true_iff, Ascii.eqb_eq, IH. split.
      * intros [-> [r ->]]. now exists r.
      * intros [r Hr]. injection Hr as -> ->. split; [reflexivity | now exists r].
Qed.

Lemma endswith_spec (suffix s : string) :
  endswith suffix s = true <-> exists b, s = b ++ suffix.
Proof.
  unfold endswith. rewrite andb_true_iff, Nat.leb_le, String.eqb_eq. split.
  - intros [_ Hd]. exists (take (String.length s - String.length suffix) s).
    pose proof (take_drop (String.length s - String.length suffix) s) as H.
    rewrite Hd in H. symmetry. exact H.
  - intros [b ->]. rewrite length_app. split; [lia|].
    replace (String.length b + String.length suffix - String.length suffix)
      with (String.length b) by lia.
    apply drop_app.
Qed.

Lemma slice_to_neg_app (b suffix : string) :
  slice_to_neg (String.length suffix) (b ++ suffix) = b.
Proof.
  unfold slice_to_neg. rewrite length_app.
  replace (String.length b + String.length suffix - String.length suffix)
    with (String.length b) by lia.
  apply take_app.
Qed.

Lemma lstrip_run (p : ascii -> bool) (c : ascii) (s : string) :
  (forall a, p a = true -> a = c) ->
  exists m, s = run c m ++ lstrip p s.
Proof.
  intros Hp. induction s as [|a s [m IH]]; simpl.
  - now exists 0.
  - destruct (p a) eqn:Ha.
    + exists (S m). simpl. rewrite (Hp a Ha). now rewrite <- IH.
    + now exists 0.
Qed.

Lemma lstrip_head (p : ascii -> bool) (s : string) (a : ascii) (t : string) :
  lstrip p s = String a t -> p a = false.
Proof.
  induction s as [|b s IH]; simpl; [discriminate|].
  destruct (p b) eqn:Hb; [exact IH|].
  intros H. injection H as <- _. exact Hb.
Qed.

Lemma rstrip_run (p : ascii -> bool) (c : ascii) (s : string) :
  (forall a, p a = true -> a = c) ->
  exists n, s = rstrip p s ++ run c n.
Proof.
  intros Hp. induction s as [|a s [n IH]]; simpl.
  - now exists 0.
  - destruct (rstrip p s) as [|b r] eqn:Hr.
    + destruct (p a) eqn:Ha.
      * exists (S n). simpl. rewrite (Hp a Ha). now rewrite IH at 1.
      * exists n. simpl. now rewrite IH at 1.
    + exists n. simpl. now rewrite IH at 1.
Qed.

Lemma rstrip_last (p : ascii -> bool) (s b : string) (c : ascii) :
  rstrip p s = b ++ String c "" -> p c = false.
Proof.
  revert b; induction s as [|a s IH]; intros b; simpl.
  - destruct b; discriminate.
  - destruct (rstrip p s) as [|x r] eqn:Hr.
    + destruct (p a) eqn:Ha.
      * destruct b; discriminate.
      * destruct b as [|y b]; simpl; intros H.
        -- injection H as <-. exact Ha.
        -- injection H as _ H. destruct b; discriminate.
    + destruct b as [|y b]; simpl; intros H.
      * injection H as _ H. discriminate.
      * injection H as _ H. apply (IH b). exact H.
Qed.

End StringFacts.

(* ================================================================== *)
(** ** app/tools/api_tools.py: build_url *)
(* ================================================================== *)

Section BuildUrl.
Import PyStr ApiTools.

Lemma is_slash_eq (a : ascii) : is_slash a = true -> a = "/"%char.
Proof. unfold is_slash. now rewrite Ascii.eqb_eq. Qed.

(** C9.  [build_url] on endpoint "/users" with base URL
    "https://api.example.com/" returns "https://api.example.com/users"; and
    for every client and every endpoint that is not an absolute http(s) URL,
    the result is the base URL without its trailing slashes, one slash, and
    the endpoint without its leading slashes, so nothing else is lost and the
    slash at the joint is not doubled. *)
Theorem build_url_single_slash :
  build_url (mkAPIClient "https://api.example.com/" "" "Authorization")
            "/users" = "https://api.example.com/users"
  /\ forall (self : APIClient) (endpoint : string),
       (is_absolute endpoint = true /\ build_url self endpoint = endpoint)
       \/ exists b e n m,
            base_url self = b ++ run "/" n
            /\ endpoint = run "/" m ++ e
            /\ endswith "/" b = false
            /\ startswith "/" e = false
            /\ build_url self endpoint = b ++ "/" ++ e.
Proof.
  split; [reflexivity|].
  intros self endpoint. unfold build_url.
  destruct (is_absolute endpoint) eqn:Habs; [left; now split | right].
  destruct (rstrip_run is_slash "/" (base_url self) is_slash_eq) as [n Hn].
  destruct (lstrip_run is_slash "/" endpoint is_slash_eq) as [m Hm].
  exists (rstrip is_slash (base_url self)), (lstrip is_slash endpoint), n, m.
  repeat split; try assumption.
  - destruct (endswith "/" (rstrip is_slash (base_url self))) eqn:He;
      [|reflexivity].
    apply endswith_spec in He. destruct He as [b Hb].
    apply rstrip_last in Hb. discriminate.
  - destruct (startswith "/" (lstrip is_slash endpoint)) eqn:Hs;
      [|reflexivity].
    apply startswith_spec in Hs. destruct Hs as [r Hr].
    apply lstrip_head in Hr. discriminate.
Qed.

End BuildUrl.

(* ================================================================== *)
(** ** The registry's dictionary *)
(* ================================================================== *)

Section DictFacts.
Import Runtime.
Context {V : Type}.
Implicit Types (d : dict V) (k : string) (v : V).

Lemma keys_dict_set_in k v d :
  In k (keys d) -> keys (dict_set k v d) = keys d.
Proof.
  induction d as [|[k' v'] d IH]; simpl; [contradiction|].
  intros Hin. destruct (String.eqb k' k) eqn:E; simpl; [reflexivity|].
  f_equal. apply IH. destruct Hin as [->|Hin]; [|exact Hin].
  rewrite String.eqb_refl in E. discriminate.
Qed.

Lemma keys_dict_set_new k v d :
  ~ In k (keys d) -> keys (dict_set k v d) = (keys d ++ [k])%list.
Proof.
  induction d as [|[k' v'] d IH]; simpl; [reflexivity|].
  intros Hn. destruct (String.eqb k' k) eqn:E; simpl.
  - apply String.eqb_eq in E. tauto.
  - f_equal. apply IH. tauto.
Qed.

Lemma dict_set_NoDup k v d :
  NoDup (keys d) -> NoDup (keys (dict_set k v d)).
Proof.
  intros Hd. destruct (in_dec string_dec k (keys d)) as [Hin|Hn].
  - now rewrite keys_dict_set_in.
  - rewrite keys_dict_set_new by assumption.
    apply NoDup_rev in Hd. rewrite <- (rev_involutive (keys d ++ [k])).
    apply NoDup_rev. rewrite rev_app_distr. simpl. constructor; [|exact Hd].
    now rewrite <- in_rev.
Qed.

Lemma dict_get_set_same k v d : dict_get k (dict_set k v d) = Some v.
Proof.
  induction d as [|[k' v'] d IH]; simpl.
  - now rewrite String.eqb_refl.
  - destruct (String.eqb k' k) eqn:E; simpl; rewrite E; [reflexivity|exact IH].
Qed.

Lemma dict_get_set_other k k' v d :
  k' <> k -> dict_get k' (dict_set k v d) = dict_get k' d.
Proof.
  intros Hne. induction d as [|[k0 v0] d IH]; simpl.
  - destruct (String.eqb k k') eqn:E; [|reflexivity].
    apply String.eqb_eq in E. congruence.
  - destruct (String.eqb k0 k) eqn:E; simpl.
    + apply String.eqb_eq in E. subst k0.
      destruct (String.eqb k k') eqn:E'; [|reflexivity].
      apply String.eqb_eq in E'. congruence.
    + now rewrite IH.
Qed.

Lemma dict_get_in_keys k v d : dict_get k d = Some v -> In k (keys d).
Proof.
  induction d as [|[k' v'] d IH]; simpl; [discriminate|].
  destruct (String.eqb k' k) eqn:E.
  - apply String.eqb_eq in E. now left.
  - intros H. right. now apply IH.
Qed.

End DictFacts.

(* ================================================================== *)
(** ** app/__init__.py: register_tool *)
(* ================================================================== *)

Section RegisterTool.
Import PyStr Py Runtime ToolRegistry Spec Scenarios.
Variable host : Host.

(** What one call of [register_tool] does, case by case. *)
Lemma register_tool_cases (func : PyObj) (name : option string) (w : World) :
  register_tool host func name w =
  match registered_name func name with
  | None =>
      (Raise (Exn AttributeError "object has no attribute '__name__'"), w)
  | Some k =>
      let w1 := mkWorld (sys_modules w)
                        (dict_set k func (registered_tools w))
                        (tool_modules w) (mcp_tools w) (trace w) in
      match host_mcp_tool host func with
      | Some e => (Raise e, w1)
      | None =>
          (Ok func,
           mkWorld (sys_modules w1) (registered_tools w1) (tool_modules w1)
                   (mcp_tools w1 ++ [func]) (trace w1))
      end
  end.
Proof.
  unfold register_tool, registered_name, bind, dunder_name, store_tool,
    mcp_tool, ret, raise.
  destruct name as [n|]; [destruct (String.eqb n "")|];
    destruct (obj_name func); simpl;
    destruct (host_mcp_tool host func); reflexivity.
Qed.

Lemma register_tool_registry (func : PyObj) (name : option string)
    (w : World) :
  registered_tools (snd (register_tool host func name w)) =
  match registered_name func name with
  | Some k => dict_set k func (registered_tools w)
  | None => registered_tools w
  end.
Proof.
  rewrite register_tool_cases.
  destruct (registered_name func name); [|reflexivity].
  simpl. destruct (host_mcp_tool host func); reflexivity.
Qed.

Lemma register_tool_trace (func : PyObj) (name : option string) (w : World) :
  trace (snd (register_tool host func name w)) = trace w
  /\ sys_modules (snd (register_tool host func name w)) = sys_modules w.
Proof.
  rewrite register_tool_cases.
  destruct (registered_name func name); [|split; reflexivity].
  simpl. destruct (host_mcp_tool host func); split; reflexivity.
Qed.

Lemma register_tool_NoDup (func : PyObj) (name : option string) (w : World) :
  NoDup (keys (registered_tools w)) ->
  NoDup (keys (registered_tools (snd (register_tool host func name w)))).
Proof.
  intros Hd. rewrite register_tool_registry.
  destruct (registered_name func name); [|exact Hd].
  now apply dict_set_NoDup.
Qed.

Lemma register_all_NoDup (calls : list (PyObj * option string)) (w : World) :
  NoDup (keys (registered_tools w)) ->
  NoDup (keys (registered_tools (register_all host calls w))).
Proof.
  revert w; induction calls as [|[func name] calls IH]; intros w Hd; simpl.
  - exact Hd.
  - apply IH. now apply register_tool_NoDup.
Qed.

End RegisterTool.

Section RegistryClaims.
Import PyStr Py Runtime ToolRegistry Spec Scenarios.

(** C8.  Registering a callable with the name omitted files it under the
    callable's own [__name__]: afterwards the registry has an entry of that
    name, and the entry is the very object that was registered. *)
Theorem register_tool_derives_name (host : Host) (w : World)
    (handler : PyObj) (n : string) :
  obj_name handler = Some n ->
  let w' := snd (register_tool host handler None w) in
  In n (keys (registered_tools w'))
  /\ dict_get n (registered_tools w') = Some handler.
Proof.
  intros Hn w'. subst w'. rewrite register_tool_registry. simpl. rewrite Hn.
  pose proof (dict_get_set_same n handler (registered_tools w)) as Hg.
  split; [now apply dict_get_in_keys with handler | exact Hg].
Qed.

Lemma register_tool_derives_name_witness :
  obj_name ping = Some "ping"
  /\ dict_get "ping"
       (registered_tools (snd (register_tool host_ab ping None init)))
     = Some ping.
Proof.
  split; [reflexivity|].
  apply (register_tool_derives_name host_ab init ping "ping"). reflexivity.
Defined.

(** C7.  After any sequence of [register_tool] calls on a new registry no
    name occurs twice.  Registering under a name that is already present
    raises nothing of its own (the call returns the handler unless the
    dispatch surface rejects it), the name's entry now holds the new
    handler, every other entry is as before, and the order of the names,
    so the position of the overwritten entry, is unchanged. *)
Theorem register_tool_overwrites_in_place :
  (forall (host : Host) (calls : list (PyObj * option string)),
     NoDup (keys (registered_tools (register_all host calls init))))
  /\ forall (host : Host) (w : World) (func : PyObj) (name : option string)
       (k : string),
       registered_name func name = Some k ->
       In k (keys (registered_tools w)) ->
       let r := register_tool host func name w in
       fst r = match host_mcp_tool host func with
               | None => Ok func
               | Some e => Raise e
               end
       /\ keys (registered_tools (snd r)) = keys (registered_tools w)
       /\ dict_get k (registered_tools (snd r)) = Some func
       /\ forall k', k' <> k ->
            dict_get k' (registered_tools (snd r))
            = dict_get k' (registered_tools w).
Proof.
  split.
  - intros host calls. apply register_all_NoDup. constructor.
  - intros host w func name k Hk Hin r. subst r.
    rewrite register_tool_registry, register_tool_cases, Hk.
    repeat split.
    + simpl. destruct (host_mcp_tool host func); reflexivity.
    + now apply keys_dict_set_in.
    + apply dict_get_set_same.
    + intros k' Hne. now apply dict_get_set_other.
Qed.

Lemma register_tool_overwrites_in_place_witness :
  let w := register_all host_ab [(ping, None); (pong, None)] init in
  let r := register_tool host_ab pong (Some "ping") w in
  keys (registered_tools w) = ["ping"; "pong"]
  /\ fst r = Ok pong
  /\ keys (registered_tools (snd r)) = ["ping"; "pong"]
  /\ dict_get "ping" (registered_tools (snd r)) = Some pong.
Proof.
  intros w r.
  destruct (proj2 register_tool_overwrites_in_place host_ab w pong
              (Some "ping") "ping") as (H1 & H2 & H3 & _).
  - reflexivity.
  - simpl. left. reflexivity.
  - split; [reflexivity|]. split; [exact H1|]. split; [exact H2 | exact H3].
Defined.

End RegistryClaims.

(* ================================================================== *)
(** ** The import system *)
(* ================================================================== *)

Section ImportFacts.
Import PyStr Py Runtime ToolRegistry ToolLoader Spec.
Variable host : Host.

Lemma execs_of_app (m : string) (a b : list event) :
  execs_of m (a ++ b) = execs_of m a + execs_of m b.
Proof.
  induction a as [|ev a IH]; simpl; [reflexivity|].
  destruct ev; simpl; rewrite IH; lia.
Qed.

Lemma imports_of_app (a b : list event) :
  imports_of (a ++ b) = (imports_of a ++ imports_of b)%list.
Proof.
  induction a as [|ev a IH]; simpl; [reflexivity|].
  destruct ev; simpl; now rewrite IH.
Qed.

Lemma listdirs_of_app (a b : list event) :
  listdirs_of (a ++ b) = (listdirs_of a ++ listdirs_of b)%list.
Proof.
  induction a as [|ev a IH]; simpl; [reflexivity|].
  destruct ev; simpl; now rewrite IH.
Qed.

Lemma mem_cons (m n : string) (l : list string) :
  mem m (n :: l) = String.eqb m n || mem m l.
Proof. reflexivity. Qed.

Lemma mem_remove (m n : string) (l : list string) :
  mem m (filter (fun x => negb (String.eqb x n)) l) = true
  <-> mem m l = true /\ m <> n.
Proof.
  unfold mem. rewrite !existsb_exists. split.
  - intros (x & Hx & He). apply String.eqb_eq in He. subst x.
    apply filter_In in Hx. destruct Hx as [Hin Hne].
    apply negb_true_iff, String.eqb_neq in Hne.
    split; [|exact Hne]. exists m. split; [exact Hin | apply String.eqb_refl].
  - intros [(x & Hx & He) Hne]. apply String.eqb_eq in He. subst x.
    exists m. split; [|apply String.eqb_refl].
    apply filter_In. split; [exact Hx|].
    now apply negb_true_iff, String.eqb_neq.
Qed.

Lemma imported_refl (w : World) : imported w w [].
Proof.
  unfold imported. rewrite app_nil_r. repeat split; auto.
Qed.

Lemma imported_trans (w w1 w2 : World) (e1 e2 : list event) :
  imported w w1 e1 -> imported w1 w2 e2 -> imported w w2 (e1 ++ e2).
Proof.
  intros (R1 & T1 & M1 & Tr1 & I1 & L1 & K1 & N1)
         (R2 & T2 & M2 & Tr2 & I2 & L2 & K2 & N2).
  unfold imported.
  rewrite R2, T2, M2, Tr2, Tr1, imports_of_app, listdirs_of_app, I1, I2, L1,
    L2, app_assoc.
  repeat split; auto.
  intros m Hm. rewrite execs_of_app.
  destruct (N2 m Hm) as [H|H]; [|lia].
  destruct (N1 m H) as [H'|H']; [now left | right; lia].
Qed.

(** The module being executed comes into [sys.modules] with the event of
    its execution. *)
Lemma imported_enter (name : string) (w : World) :
  imported w (add_module name (emit (EvExec name) w)) [EvExec name].
Proof.
  unfold imported, add_module, emit.
  cbn [registered_tools tool_modules mcp_tools trace sys_modules
       imports_of listdirs_of].
  repeat split; auto.
  - intros m Hm. rewrite mem_cons, Hm. apply orb_true_r.
  - intros m. rewrite mem_cons. intros Hm.
    apply orb_true_iff in Hm. destruct Hm as [Hm|Hm]; [|now left].
    right. apply String.eqb_eq in Hm. subst m.
    cbn [execs_of]. rewrite String.eqb_refl. lia.
Qed.

(** Taking out again a module that was not there at the start. *)
Lemma imported_leave (name : string) (w w' : World) (evs : list event) :
  mem name (sys_modules w) = false ->
  imported w w' evs -> imported w (remove_module name w') evs.
Proof.
  intros Hn (R & T & M & Tr & I & L & K & N).
  unfold imported, remove_module.
  cbn [registered_tools tool_modules mcp_tools trace sys_modules].
  repeat split; auto.
  - intros m Hm. apply mem_remove. split; [now apply K|].
    intros ->. congruence.
  - intros m Hm. apply mem_remove in Hm. apply N. tauto.
Qed.

Lemma imported_loop (k : nat) :
  (forall name w, exists evs, imported w (snd (find_and_load host k name w)) evs) ->
  forall imports w,
    exists evs,
      imported w (snd (for_each imports (find_and_load host k) w)) evs.
Proof.
  intros IH imports.
  induction imports as [|i imports IHl]; intros w; simpl.
  - exists []. apply imported_refl.
  - unfold bind. destruct (IH i w) as [e1 H1].
    destruct (find_and_load host k i w) as [[u|e] w1]; simpl in H1.
    + destruct (IHl w1) as [e2 H2]. exists (e1 ++ e2)%list.
      now apply imported_trans with w1.
    + now exists e1.
Qed.

(** What the import machinery does to the state, and that a module it has
    imported is in [sys.modules]. *)
Lemma find_and_load_imported (depth : nat) (name : string) (w : World) :
  exists evs, imported w (snd (find_and_load host depth name w)) evs.
Proof.
  revert name w; induction depth as [|k IH]; intros name w; simpl.
  - exists []. apply imported_refl.
  - destruct (mem name (sys_modules w)) eqn:Hc;
      [exists []; apply imported_refl|].
    assert (Hp : exists e1,
               imported w
                 (snd (if String.eqb (parent_of name) "" then (Ok tt, w)
                       else find_and_load host k (parent_of name) w)) e1).
    { destruct (String.eqb (parent_of name) "");
        [exists []; apply imported_refl | apply IH]. }
    destruct Hp as [e1 H1].
    destruct (if String.eqb (parent_of name) "" then (Ok tt, w)
              else find_and_load host k (parent_of name) w)
      as [[u|e] w1]; simpl in H1; [|now exists e1].
    destruct (mem name (sys_modules w1)) eqn:Hc1; [now exists e1|].
    destruct (host_modules host name) as [src|]; [|now exists e1].
    destruct (imported_loop k IH (mod_imports src)
                (add_module name (emit (EvExec name) w1))) as [e3 H3].
    pose proof (imported_trans _ _ _ _ _ (imported_enter name w1) H3) as H13.
    destruct (for_each (mod_imports src) (find_and_load host k)
                (add_module name (emit (EvExec name) w1)))
      as [[u'|e] w3]; simpl in H3, H13.
    + destruct (mod_raises src) as [e|]; simpl.
      * exists (e1 ++ [EvExec name] ++ e3)%list.
        apply imported_trans with w1; [exact H1|].
        now apply imported_leave.
      * exists (e1 ++ [EvExec name] ++ e3)%list.
        now apply imported_trans with w1.
    + simpl. exists (e1 ++ [EvExec name] ++ e3)%list.
      apply imported_trans with w1; [exact H1|].
      now apply imported_leave.
Qed.

Lemma loop_keeps_modules (k : nat) (imports : list string) (w : World)
    (m : string) :
  mem m (sys_modules w) = true ->
  mem m (sys_modules (snd (for_each imports (find_and_load host k) w)))
  = true.
Proof.
  intros Hm.
  destruct (imported_loop k (find_and_load_imported k) imports w)
    as (evs & _ & _ & _ & _ & _ & _ & K & _).
  now apply K.
Qed.

Lemma find_and_load_ok (depth : nat) (name : string) (w : World) :
  fst (find_and_load host depth name w) = Ok tt ->
  mem name (sys_modules (snd (find_and_load host depth name w))) = true.
Proof.
  destruct depth as [|k]; simpl; [discriminate|].
  destruct (mem name (sys_modules w)) eqn:Hc; [intros _; exact Hc|].
  destruct (if String.eqb (parent_of name) "" then (Ok tt, w)
            else find_and_load host k (parent_of name) w)
    as [[u|e] w1]; simpl; [|discriminate].
  destruct (mem name (sys_modules w1)) eqn:Hc1; [intros _; exact Hc1|].
  destruct (host_modules host name) as [src|]; [|discriminate].
  pose proof (loop_keeps_modules k (mod_imports src)
                (add_module name (emit (EvExec name) w1)) name) as Hk.
  destruct (for_each (mod_imports src) (find_and_load host k)
              (add_module name (emit (EvExec name) w1)))
    as [[u'|e] w3]; cbn [fst snd] in Hk |- *; [|discriminate].
  destruct (mod_raises src); cbn [fst snd]; [discriminate|].
  intros _. apply Hk. unfold add_module, emit. cbn [sys_modules].
  rewrite mem_cons, String.eqb_refl. reflexivity.
Qed.

Lemma find_and_load_cached (k : nat) (name : string) (w : World) :
  mem name (sys_modules w) = true ->
  find_and_load host (S k) name w = (Ok tt, w).
Proof. intros H. simpl. now rewrite H. Qed.

(** [import_module] in terms of the machinery. *)
Lemma import_module_cases (name : string) (w : World) :
  import_module host name w =
  if startswith "." name then
    (Raise (Exn TypeError
                ("the 'package' argument is required to perform a "
                 ++ "relative import for '" ++ name ++ "'")),
     emit (EvImport name) w)
  else if String.eqb name "" then
    (Raise (Exn ValueError "Empty module name"), emit (EvImport name) w)
  else
    match find_and_load host import_depth name (emit (EvImport name) w) with
    | (Raise e, w2) => (Raise e, w2)
    | (Ok _, w2) =>
        match host_modules host name with
        | Some src => (Ok src, w2)
        | None =>
            (Raise (Exn ModuleNotFoundError
                        ("No module named '" ++ name ++ "'")), w2)
        end
    end.
Proof. reflexivity. Qed.

(** An import touches [sys.modules] and the trace only, and the trace grows
    by the call and by what the machinery executes. *)
Lemma import_module_frame (name : string) (w : World) :
  let w' := snd (import_module host name w) in
  registered_tools w' = registered_tools w
  /\ tool_modules w' = tool_modules w
  /\ mcp_tools w' = mcp_tools w
  /\ exists evs,
       trace w' = (trace w ++ EvImport name :: evs)%list
       /\ load_footprint name evs.
Proof.
  cbv zeta. rewrite import_module_cases.
  assert (Hnone : registered_tools (emit (EvImport name) w)
                  = registered_tools w
                  /\ tool_modules (emit (EvImport name) w) = tool_modules w
                  /\ mcp_tools (emit (EvImport name) w) = mcp_tools w
                  /\ exists evs,
                       trace (emit (EvImport name) w)
                       = (trace w ++ EvImport name :: evs)%list
                       /\ load_footprint name evs).
  { repeat split. exists []. now repeat split. }
  destruct (startswith "." name); [exact Hnone|].
  destruct (String.eqb name ""); [exact Hnone|].
  destruct (find_and_load_imported import_depth name (emit (EvImport name) w))
    as (evs & R & T & M & Tr & I & L & _).
  assert (Hall : forall w2,
             w2 = snd (find_and_load host import_depth name
                         (emit (EvImport name) w)) ->
             registered_tools w2 = registered_tools w
             /\ tool_modules w2 = tool_modules w
             /\ mcp_tools w2 = mcp_tools w
             /\ exists evs0,
                  trace w2 = (trace w ++ EvImport name :: evs0)%list
                  /\ load_footprint name evs0).
  { intros w2 ->. rewrite R, T, M, Tr. repeat split.
    exists evs. simpl. rewrite <- app_assoc. now repeat split. }
  destruct (find_and_load host import_depth name (emit (EvImport name) w))
    as [[u|e] w2]; simpl in Hall.
  - destruct (host_modules host name); apply Hall; reflexivity.
  - apply Hall; reflexivity.
Qed.

Lemma getfile_state (name : string) (m : ModuleSrc) (w : World) :
  snd (getfile name m w) = w.
Proof.
  unfold getfile. destruct (mod_file m) as [f|]; [|reflexivity].
  destruct (String.eqb f ""); reflexivity.
Qed.

Lemma getfile_fst (name : string) (m : ModuleSrc) (w w1 : World) :
  fst (getfile name m w1) = fst (getfile name m w).
Proof.
  unfold getfile. destruct (mod_file m) as [f|]; [|reflexivity].
  destruct (String.eqb f ""); reflexivity.
Qed.

End ImportFacts.

(* ================================================================== *)
(** ** app/__init__.py: load_tools_from_module *)
(* ================================================================== *)

Section LoadFromModule.
Import PyStr Py Runtime ToolRegistry ToolLoader Spec Scenarios.

(** C5.  When the import of the module raises an ImportError,
    [load_tools_from_module] returns normally, the registry (and the list of
    loaded modules, and the dispatch surface) is as it was, and the last
    thing that happened is an error-level log entry naming the module. *)
Theorem load_tools_from_module_import_error (host : Host) (w : World)
    (module_name : string) (e : exn) :
  fst (import_module host module_name w) = Raise e ->
  isinstance e ImportError = true ->
  exists w' evs,
    load_tools_from_module host module_name w = (Ok tt, w')
    /\ registered_tools w' = registered_tools w
    /\ tool_modules w' = tool_modules w
    /\ mcp_tools w' = mcp_tools w
    /\ trace w' =
       (trace w ++ evs
        ++ [EvLog ERROR ("Error loading tool module " ++ module_name ++ ": "
                         ++ exn_str e)])%list.
Proof.
  intros Himp Hcls.
  pose proof (import_module_frame host module_name w) as Hfr.
  unfold load_tools_from_module, try_except, bind.
  destruct (import_module host module_name w) as [r w1] eqn:Hi.
  cbn [fst snd] in Himp, Hfr. subst r. rewrite Hcls.
  destruct Hfr as (Hr & Ht & Hm & evs & Htr & _).
  unfold logger_error, emit. eexists. exists (EvImport module_name :: evs).
  split; [reflexivity|]. cbn [registered_tools tool_modules mcp_tools trace].
  rewrite Htr, <- app_assoc. repeat split; assumption.
Qed.

Lemma load_tools_from_module_import_error_witness :
  exists w',
    load_tools_from_module host_ab "app.tools.missing" started = (Ok tt, w')
    /\ registered_tools w' = registered_tools started.
Proof.
  destruct (load_tools_from_module_import_error host_ab started
              "app.tools.missing"
              (Exn ModuleNotFoundError "No module named 'app.tools.missing'"))
    as (w' & evs & H1 & H2 & _).
  - reflexivity.
  - reflexivity.
  - exists w'. split; assumption.
Defined.

End LoadFromModule.

(* ================================================================== *)
(** ** app/tool_loader.py: discover_tool_modules *)
(* ================================================================== *)

Section Discovery.
Import PyStr Py Runtime ToolRegistry ToolLoader Spec Scenarios.

Lemma is_tool_file_spec (f : string) :
  is_tool_file f = true <-> source_file f.
Proof.
  unfold is_tool_file, source_file.
  rewrite andb_true_iff, negb_true_iff, endswith_spec.
  rewrite <- not_true_iff_false, startswith_spec. reflexivity.
Qed.

Lemma picks_filter (files : list string) :
  picks source_file files (filter is_tool_file files).
Proof.
  induction files as [|f files IH]; simpl; [constructor|].
  destruct (is_tool_file f) eqn:E.
  - apply picks_keep; [now apply is_tool_file_spec | exact IH].
  - apply picks_skip; [|exact IH].
    rewrite <- is_tool_file_spec, E. discriminate.
Qed.

Lemma built_path_spec (package_path : string) (files : list string) :
  Forall2 (module_path_of package_path)
          (filter is_tool_file files)
          (map (built_path package_path) (filter is_tool_file files)).
Proof.
  induction files as [|f files IH]; simpl; [constructor|].
  destruct (is_tool_file f) eqn:E; [|exact IH].
  simpl. constructor; [|exact IH].
  apply is_tool_file_spec in E. destruct E as [[b Hb] _].
  exists b. split; [exact Hb|].
  unfold built_path. subst f.
  change 3 with (String.length ".py").
  now rewrite (slice_to_neg_app b ".py").
Qed.

Variable host : Host.

Lemma discover_loop (package_path : string) (files acc : list string)
    (w : World) :
  for_fold files (discover_step package_path) acc w =
  (Ok (acc ++ map (built_path package_path) (filter is_tool_file files))%list,
   w).
Proof.
  revert acc; induction files as [|f files IH]; intros acc; simpl.
  - unfold ret. now rewrite app_nil_r.
  - unfold bind, discover_step. destruct (is_tool_file f); unfold ret.
    + rewrite IH. simpl. now rewrite <- app_assoc.
    + apply IH.
Qed.

(** [discover_tool_modules], stage by stage. *)
Lemma discover_tool_modules_cases (package_path : string) (w : World) :
  discover_tool_modules host package_path w =
  match import_module host package_path w with
  | (Raise e, w1) => discovery_handler package_path e w1
  | (Ok package, w1) =>
      match fst (getfile package_path package w) with
      | Raise e => discovery_handler package_path e w1
      | Ok file =>
          let w2 := emit (EvListdir (dirname file)) w1 in
          match host_listdir host (dirname file) with
          | Raise e => discovery_handler package_path e w2
          | Ok files =>
              let found :=
                map (built_path package_path) (filter is_tool_file files) in
              (Ok found,
               emit (EvLog INFO ("Discovered "
                                 ++ str_of_nat (List.length found)
                                 ++ " tool modules in " ++ package_path)) w2)
          end
      end
  end.
Proof.
  unfold discover_tool_modules, try_except, bind, discovery_handler,
    discovery_catches.
  destruct (import_module host package_path w) as [[package|e] w1];
    [|destruct (_ || _); reflexivity].
  rewrite <- (getfile_fst package_path package w w1).
  pose proof (getfile_state package_path package w1) as Hs.
  destruct (getfile package_path package w1) as [[file|e] w1'];
    simpl in Hs; subst w1'; simpl;
    [|destruct (_ || _); reflexivity].
  unfold listdir.
  destruct (host_listdir host (dirname file)) as [files|e];
    [|destruct (_ || _); reflexivity].
  rewrite discover_loop. simpl. unfold logger_info, ret. reflexivity.
Qed.

End Discovery.

Section DiscoveryClaims.
Import PyStr Py Runtime ToolRegistry ToolLoader Spec Scenarios.

(** C1.  When the package imports, has a file, and its directory lists as
    [files], discovery returns one module path for each entry of [files]
    whose name ends in ".py" and does not begin with "__", in listing order
    and no others: as many paths as there are such entries, each the package
    path, a dot, and the entry's name without its ".py". *)
Theorem discover_tool_modules_lists_sources (host : Host) (w : World)
    (package_path : string) (package : ModuleSrc) (file : string)
    (files : list string) :
  fst (import_module host package_path w) = Ok package ->
  fst (getfile package_path package w) = Ok file ->
  host_listdir host (dirname file) = Ok files ->
  exists kept found w',
    discover_tool_modules host package_path w = (Ok found, w')
    /\ picks source_file files kept
    /\ List.length found = List.length kept
    /\ Forall2 (module_path_of package_path) kept found.
Proof.
  intros Himp Hfile Hls.
  exists (filter is_tool_file files),
         (map (built_path package_path) (filter is_tool_file files)).
  rewrite discover_tool_modules_cases.
  destruct (import_module host package_path w) as [r w1].
  simpl in Himp. subst r. rewrite Hfile, Hls.
  eexists. split; [reflexivity|]. split; [apply picks_filter|].
  split; [apply length_map | apply built_path_spec].
Qed.

Lemma discover_tool_modules_lists_sources_witness :
  exists kept found w',
    discover_tool_modules host_ab "app.tools" started = (Ok found, w')
    /\ picks source_file ["a.py"; "b.py"; "__init__.py"] kept
    /\ List.length found = List.length kept
    /\ Forall2 (module_path_of "app.tools") kept found.
Proof.
  apply (discover_tool_modules_lists_sources host_ab started "app.tools"
           pkg_tools tools_init ["a.py"; "b.py"; "__init__.py"]);
    reflexivity.
Defined.

(** C6, as the code has it.  When resolving or listing the namespace fails
    with an ImportError (a missing package) or a FileNotFoundError (a
    missing directory), discovery returns the empty list and its last action
    is an error-level log entry naming the package; when it fails with an
    exception of any other class, that exception is raised to the caller. *)
Theorem discover_tool_modules_failure (host : Host) (w : World)
    (package_path : string) (e : exn) :
  discovery_failure host w package_path e ->
  (isinstance e ImportError = true \/ isinstance e FileNotFoundError = true ->
   exists w' evs,
     discover_tool_modules host package_path w = (Ok [], w')
     /\ trace w' =
        (trace w ++ evs
         ++ [EvLog ERROR ("Error discovering modules in " ++ package_path
                          ++ ": " ++ exn_str e)])%list)
  /\ (isinstance e ImportError = false ->
      isinstance e FileNotFoundError = false ->
      fst (discover_tool_modules host package_path w) = Raise e).
Proof.
  intros Hfail.
  assert (Hshape : exists w1 evs,
             discover_tool_modules host package_path w
             = discovery_handler package_path e w1
             /\ trace w1 = (trace w ++ evs)%list).
  { rewrite discover_tool_modules_cases.
    pose proof (import_module_frame host package_path w)
      as (_ & _ & _ & ev0 & Htr & _).
    destruct (import_module host package_path w) as [r w1] eqn:Himp.
    cbn [snd] in Htr.
    destruct Hfail as [e Hi | package e Hi Hg | package file e Hi Hg Hl];
      rewrite Himp in Hi; cbn [fst] in Hi; subst r.
    - eauto.
    - rewrite Hg. eauto.
    - rewrite Hg, Hl. eexists. eexists. split; [reflexivity|].
      unfold emit. cbn [trace]. rewrite Htr, <- app_assoc. reflexivity. }
  destruct Hshape as (w1 & evs & Hd & Htr). rewrite Hd.
  unfold discovery_handler, discovery_catches. split.
  - intros Hc.
    assert (Hor : isinstance e ImportError || isinstance e FileNotFoundError
                  = true) by (apply orb_true_iff; exact Hc).
    rewrite Hor. eexists; exists evs. split; [reflexivity|].
    simpl. rewrite Htr, <- app_assoc. reflexivity.
  - intros H1 H2. rewrite H1, H2. reflexivity.
Qed.

Lemma discover_tool_modules_failure_witness :
  exists w',
    discover_tool_modules host_ab "app.plugins" started = (Ok [], w').
Proof.
  destruct (discover_tool_modules_failure host_ab started "app.plugins"
              (Exn ModuleNotFoundError "No module named 'app.plugins'"))
    as [H _].
  - apply fail_import. reflexivity.
  - destruct H as (w' & evs & H & _); [left; reflexivity|].
    exists w'. exact H.
Defined.

(** C6 as stated fails: the directory of an importable package exists but
    may not be read, so it cannot be listed, and discovery raises the
    PermissionError to its caller instead of returning the empty list. *)
Lemma discover_tool_modules_raises_when_unreadable :
  discovery_failure host_locked started "app.tools" permission_denied
  /\ fst (discover_tool_modules host_locked "app.tools" started)
     = Raise permission_denied.
Proof.
  split; [|reflexivity].
  apply (fail_listdir host_locked started "app.tools" pkg_tools tools_init);
    reflexivity.
Qed.

End DiscoveryClaims.

(* ================================================================== *)
(** ** app/tools/web_tools.py: navigate_to *)
(* ================================================================== *)

Section Navigation.
Import PyStr Py WebTools Scenarios.

Lemma existsb_eqb_In (x : string) (l : list string) :
  existsb (String.eqb x) l = true <-> In x l.
Proof.
  rewrite existsb_exists. split.
  - intros [y [Hy He]]. apply String.eqb_eq in He. now subst.
  - intros Hin. exists x. split; [exact Hin | apply String.eqb_refl].
Qed.

Lemma NoDup_snoc (x : string) (l : list string) :
  NoDup l -> ~ In x l -> NoDup (l ++ [x]).
Proof.
  intros Hd Hn. apply NoDup_rev in Hd.
  rewrite <- (rev_involutive (l ++ [x])). apply NoDup_rev.
  rewrite rev_app_distr. simpl. constructor; [|exact Hd].
  now rewrite <- in_rev.
Qed.






End Navigation.

(* ================================================================== *)
(** ** Traces of the loader *)
(* ================================================================== *)

Section TraceFacts.
Import PyStr Py Runtime ToolRegistry ToolLoader Spec.

Lemma load_footprint_log (name : string) (evs : list event)
    (lvl : level) (msg : string) :
  load_footprint name evs -> load_footprint name (evs ++ [EvLog lvl msg]).
Proof.
  intros (Hi & Hl). split.
  - rewrite imports_of_app, Hi. reflexivity.
  - rewrite listdirs_of_app, Hl. reflexivity.
Qed.

Variable host : Host.

Lemma import_module_footprint (name : string) (w : World) :
  exists evs,
    trace (snd (import_module host name w))
    = (trace w ++ EvImport name :: evs)%list
    /\ load_footprint name evs.
Proof.
  destruct (import_module_frame host name w) as (_ & _ & _ & H). exact H.
Qed.

Lemma register_if_tool_trace (entry : string * PyObj) (w : World) :
  trace (snd (register_if_tool host entry w)) = trace w.
Proof.
  unfold register_if_tool.
  destruct (obj_tool_definition (snd entry)); [|reflexivity].
  destruct (obj_callable (snd entry)); [|reflexivity].
  unfold bind.
  pose proof (register_tool_trace host (snd entry) (dict_get "name" l) w)
    as [Ht _].
  destruct (register_tool host (snd entry) (dict_get "name" l) w)
    as [[f|e] w1]; exact Ht.
Qed.

Lemma for_each_register_trace (attrs : list (string * PyObj)) (w : World) :
  trace (snd (for_each attrs (register_if_tool host) w)) = trace w.
Proof.
  revert w; induction attrs as [|a attrs IH]; intros w; simpl;
    [reflexivity|].
  unfold bind.
  pose proof (register_if_tool_trace a w) as Ha.
  destruct (register_if_tool host a w) as [[u|e] w1]; simpl in Ha.
  - rewrite IH. exact Ha.
  - exact Ha.
Qed.

(** One call of [load_tools_from_module] adds to the trace the import of
    the module named, at most one execution of it, and log entries. *)
Lemma load_tools_from_module_footprint (name : string) (w : World) :
  exists evs,
    trace (snd (load_tools_from_module host name w))
    = (trace w ++ EvImport name :: evs)%list
    /\ load_footprint name evs.
Proof.
  destruct (import_module_footprint name w) as (evs & Htr & Hfp).
  unfold load_tools_from_module, try_except, bind.
  destruct (import_module host name w) as [[module|e] w1]; simpl in Htr.
  - unfold append_tool_module at 1.
    set (w2 := mkWorld _ _ _ _ _).
    pose proof (for_each_register_trace (mod_attrs module) w2) as Hf.
    destruct (for_each (mod_attrs module) (register_if_tool host) w2)
      as [[u|e] w3]; simpl in Hf.
    + unfold logger_info, emit. simpl. rewrite Hf. subst w2. simpl.
      rewrite Htr. exists (evs ++ [EvLog INFO
                                      ("Loaded tools from module: " ++ name)])%list.
      split; [now rewrite <- app_assoc | now apply load_footprint_log].
    + destruct (isinstance e ImportError).
      * unfold logger_error, emit. simpl. rewrite Hf. subst w2. simpl.
        rewrite Htr.
        exists (evs ++ [EvLog ERROR ("Error loading tool module " ++ name
                                     ++ ": " ++ exn_str e)])%list.
        split; [now rewrite <- app_assoc | now apply load_footprint_log].
      * simpl. rewrite Hf. subst w2. simpl. exists evs. now split.
  - destruct (isinstance e ImportError).
    + unfold logger_error, emit. simpl. rewrite Htr.
      exists (evs ++ [EvLog ERROR ("Error loading tool module " ++ name
                                   ++ ": " ++ exn_str e)])%list.
      split; [now rewrite <- app_assoc | now apply load_footprint_log].
    + simpl. exists evs. now split.
Qed.

(** One iteration of the loop of [load_tool_modules], case by case. *)
Lemma load_one_cases (c : nat) (p : string) (w : World) :
  load_one host c p w =
  match load_tools_from_module host (strip p) w with
  | (Ok _, w1) => (Ok (c + 1), w1)
  | (Raise e, w1) =>
      if isinstance e Exception then
        (Ok c,
         emit (EvLog ERROR ("Failed to load tool module " ++ p ++ ": "
                            ++ exn_str e)) w1)
      else (Raise e, w1)
  end.
Proof.
  unfold load_one, try_except, bind.
  destruct (load_tools_from_module host (strip p) w) as [[u|e] w1];
    [reflexivity|].
  destruct (isinstance e Exception); reflexivity.
Qed.

Lemma load_one_footprint (c : nat) (p : string) (w : World) :
  exists evs,
    trace (snd (load_one host c p w))
    = (trace w ++ EvImport (strip p) :: evs)%list
    /\ load_footprint (strip p) evs.
Proof.
  destruct (load_tools_from_module_footprint (strip p) w)
    as (evs & Htr & Hfp).
  rewrite load_one_cases.
  destruct (load_tools_from_module host (strip p) w) as [[u|e] w1];
    simpl in Htr.
  - exists evs. now split.
  - destruct (isinstance e Exception).
    + simpl. rewrite Htr.
      exists (evs ++ [EvLog ERROR ("Failed to load tool module " ++ p ++ ": "
                                   ++ exn_str e)])%list.
      split; [now rewrite <- app_assoc | now apply load_footprint_log].
    + exists evs. now split.
Qed.

End TraceFacts.

(* ================================================================== *)
(** ** app/tool_loader.py: load_tool_modules *)
(* ================================================================== *)

Section LoadLoop.
Import PyStr Py Runtime ToolRegistry ToolLoader Spec.
Variable host : Host.

Lemma load_attempts_cons (p : string) (t : list string) (w : World) :
  load_attempts host (p :: t) w
  = fst (load_tools_from_module host (strip p) w)
    :: load_attempts host t (snd (load_one host 0 p w)).
Proof. reflexivity. Qed.

(** One iteration either goes on, after an attempt that returned or raised
    an Exception, or stops with what the attempt raised, which is no
    Exception; the state it leaves does not depend on the counter. *)
Lemma load_one_step (c : nat) (p : string) (w : World) :
  snd (load_one host c p w) = snd (load_one host 0 p w)
  /\ match fst (load_one host c p w) with
     | Ok _ => survivable (fst (load_tools_from_module host (strip p) w))
     | Raise e =>
         fst (load_tools_from_module host (strip p) w) = Raise e
         /\ isinstance e Exception = false
     end.
Proof.
  rewrite !load_one_cases.
  destruct (load_tools_from_module host (strip p) w) as [[u|e] w1];
    [now split|].
  destruct (isinstance e Exception) eqn:He; now split.
Qed.

(** The loop attempts the paths in order, one call of [import_module]
    each, and lists no directory.  It goes through the whole list when every
    attempt returns or raises an Exception, and it stops at the first
    attempt that raises anything else, with that exception. *)
Lemma load_loop_trace (paths : list string) (c : nat) (w : World) :
  let r := for_fold paths (load_one host) c w in
  listdirs_of (trace (snd r)) = listdirs_of (trace w)
  /\ exists attempted rest,
       paths = (attempted ++ rest)%list
       /\ imports_of (trace (snd r))
          = (imports_of (trace w) ++ map strip attempted)%list
       /\ match fst r with
          | Ok _ => rest = [] /\ Forall survivable (load_attempts host paths w)
          | Raise e =>
              isinstance e Exception = false
              /\ exists outs,
                   load_attempts host attempted w = (outs ++ [Raise e])%list
                   /\ Forall survivable outs
          end.
Proof.
  revert c w; induction paths as [|p paths IH]; intros c w; cbv zeta.
  - cbn [for_fold ret fst snd load_attempts]. split; [reflexivity|].
    exists [], []. cbn [map app]. rewrite app_nil_r.
    repeat split; constructor.
  - cbn [for_fold]. unfold bind.
    destruct (load_one_footprint host c p w) as (evs & Htr & Hi & Hl).
    destruct (load_one_step c p w) as [Hst Hout].
    destruct (load_one host c p w) as [[c'|e] w1];
      cbn [fst snd] in Htr, Hst, Hout |- *.
    + destruct (IH c' w1) as (IHl & attempted & rest & Hp & Him & Hr).
      split.
      * rewrite IHl, Htr, listdirs_of_app. cbn [listdirs_of]. rewrite Hl.
        apply app_nil_r.
      * exists (p :: attempted), rest.
        split; [cbn [app]; now rewrite Hp|].
        split.
        -- rewrite Him, Htr, imports_of_app. cbn [imports_of map].
           rewrite Hi, <- app_assoc. reflexivity.
        -- rewrite !load_attempts_cons, <- Hst.
           destruct (fst (for_fold paths (load_one host) c' w1)) as [n|e'].
           ++ destruct Hr as [-> Hs]. split; [reflexivity|].
              constructor; [exact Hout | exact Hs].
           ++ destruct Hr as (He' & outs & Ho & Hs). split; [exact He'|].
              exists (fst (load_tools_from_module host (strip p) w) :: outs).
              rewrite Ho. split; [reflexivity|].
              constructor; [exact Hout | exact Hs].
    + destruct Hout as [Hraise He]. split.
      * rewrite Htr, listdirs_of_app. cbn [listdirs_of]. rewrite Hl.
        apply app_nil_r.
      * exists [p], paths. split; [reflexivity|]. split.
        -- rewrite Htr, imports_of_app. cbn [imports_of map]. now rewrite Hi.
        -- split; [exact He|]. exists [].
           rewrite load_attempts_cons, Hraise. split; [reflexivity|].
           constructor.
Qed.

(** The counter the loop returns. *)
Lemma load_loop_count (paths : list string) (c : nat) (w : World) :
  Forall survivable (load_attempts host paths w) ->
  fst (for_fold paths (load_one host) c w)
  = Ok (c + List.length (filter not_raised (load_attempts host paths w))).
Proof.
  revert c w; induction paths as [|p paths IH]; intros c w Hs; simpl.
  - unfold ret. simpl. f_equal. lia.
  - simpl in Hs. inversion Hs as [|r rs Hr Hrs]; subst. clear Hs.
    unfold bind. rewrite (load_one_cases host 0 p w) in Hrs |- *.
    rewrite (load_one_cases host c p w).
    destruct (load_tools_from_module host (strip p) w) as [[u|e] w1];
      simpl in *.
    + rewrite (IH (c + 1) w1 Hrs). f_equal. lia.
    + rewrite Hr in *. simpl in *. rewrite (IH c _ Hrs). reflexivity.
Qed.

(** [load_tool_modules] in terms of its loop. *)
Lemma load_tool_modules_cases (module_paths : option (list string))
    (w : World) :
  load_tool_modules host module_paths w =
  let paths :=
    match module_paths with
    | None =>
        if String.eqb
             (environ_get host "MCP_TOOL_MODULES" default_tool_modules) ""
        then []
        else split ","%char
               (environ_get host "MCP_TOOL_MODULES" default_tool_modules)
    | Some l => l
    end in
  match for_fold paths (load_one host) 0 w with
  | (Ok n, w1) =>
      (Ok n,
       emit (EvLog INFO ("Loaded " ++ str_of_nat n ++ " tool modules")) w1)
  | (Raise e, w1) => (Raise e, w1)
  end.
Proof.
  unfold load_tool_modules, bind, logger_info, ret. cbv zeta.
  destruct (for_fold _ (load_one host) 0 w) as [[n|e] w1]; reflexivity.
Qed.

End LoadLoop.

Section DiscoveryTrace.
Import PyStr Py Runtime ToolRegistry ToolLoader Spec.
Variable host : Host.

(** The trace after discovery is the trace after the import, extended by
    the events emitted since. *)
Ltac grown_by Htr :=
  eexists; split;
  [ cbv zeta; cbn [snd fst]; unfold emit; cbn [trace]; rewrite Htr;
    rewrite <- ?app_assoc; cbn [app]; reflexivity
  | split; [assumption | split; [reflexivity | intros; reflexivity]] ].

Ltac unchanged Htr :=
  exists []; split;
  [ cbn [snd fst]; rewrite Htr, app_nil_r; reflexivity
  | split; [assumption | split; [reflexivity | intros; reflexivity]] ].

(** Discovery calls [import_module] once, on the package, and what else it
    adds to the trace is at most one execution of the package, the
    directory listing and a log entry. *)
Lemma discover_trace (package_path : string) (w : World) :
  exists evs tail,
    trace (snd (discover_tool_modules host package_path w))
    = (trace w ++ EvImport package_path :: evs ++ tail)%list
    /\ load_footprint package_path evs
    /\ imports_of tail = []
    /\ forall m, execs_of m tail = 0.
Proof.
  destruct (import_module_footprint host package_path w)
    as (evs & Htr & Hfp).
  exists evs.
  rewrite discover_tool_modules_cases.
  destruct (import_module host package_path w) as [[package|e] w1];
    cbn [snd] in Htr.
  - destruct (fst (getfile package_path package w)) as [file|e].
    + destruct (host_listdir host (dirname file)) as [files|e].
      * grown_by Htr.
      * unfold discovery_handler. destruct (discovery_catches e);
          grown_by Htr.
    + unfold discovery_handler. destruct (discovery_catches e);
        [grown_by Htr | unchanged Htr].
  - unfold discovery_handler. destruct (discovery_catches e);
      [grown_by Htr | unchanged Htr].
Qed.

Lemma discover_found (package_path : string) (w : World)
    (found : list string) :
  fst (discover_tool_modules host package_path w) = Ok found ->
  Forall (fun p => exists x, p = package_path ++ "." ++ x) found.
Proof.
  rewrite discover_tool_modules_cases.
  assert (Hh : forall e w1,
             fst (discovery_handler package_path e w1) = Ok found ->
             found = []).
  { intros e w1. unfold discovery_handler.
    destruct (discovery_catches e); simpl; [|discriminate].
    intros H. now injection H as <-. }
  destruct (import_module host package_path w) as [[package|e] w1].
  - destruct (fst (getfile package_path package w)) as [file|e].
    + destruct (host_listdir host (dirname file)) as [files|e].
      * simpl. intros H. injection H as <-.
        apply Forall_forall. intros p Hp. apply in_map_iff in Hp.
        destruct Hp as (f & <- & _). now exists (slice_to_neg 3 f).
      * intros H. rewrite (Hh _ _ H). constructor.
    + intros H. rewrite (Hh _ _ H). constructor.
  - intros H. rewrite (Hh _ _ H). constructor.
Qed.

End DiscoveryTrace.

(* ================================================================== *)
(** ** Discovery and loading together *)
(* ================================================================== *)

Section LoaderClaims.
Import PyStr Py Runtime ToolRegistry ToolLoader Spec Scenarios.

Lemma eqb_longer (p x : string) : String.eqb p (p ++ "." ++ x) = false.
Proof.
  apply String.eqb_neq. intros H.
  apply (f_equal String.length) in H. rewrite length_app in H.
  simpl in H. lia.
Qed.

(** C2 as stated fails: in a process that has not imported [app.tools]
    yet, discovery executes the top-level code of [app.tools]. *)
Lemma discovery_executes_the_package_initializer :
  execs_of "app.tools" (trace started) = 0
  /\ execs_of "app.tools"
       (trace (snd (discover_tool_modules host_ab "app.tools" started))) = 1.
Proof. split; reflexivity. Qed.

Lemma for_each_ext {X} (f g : X -> M unit) (l : list X) (w : World) :
  (forall x w', f x w' = g x w') -> for_each l f w = for_each l g w.
Proof.
  intros Hfg. revert w; induction l as [|x l IH]; intros w; simpl;
    [reflexivity|].
  unfold bind. rewrite Hfg. destruct (g x w) as [[u|e] w1]; [apply IH|].
  reflexivity.
Qed.

Lemma for_fold_ext {X S} (f g : S -> X -> M S) (l : list X) (s0 : S)
    (w : World) :
  (forall s x w', f s x w' = g s x w') ->
  for_fold l f s0 w = for_fold l g s0 w.
Proof.
  intros Hfg. revert s0 w; induction l as [|x l IH]; intros s0 w; simpl;
    [reflexivity|].
  unfold bind. rewrite Hfg. destruct (g s0 x w) as [[s1|e] w1]; [apply IH|].
  reflexivity.
Qed.

(** None of the code behind the entry point reads the environment. *)
Lemma find_and_load_environ (host : Host) (environ : string -> option string)
    (depth : nat) (name : string) (w : World) :
  find_and_load (set_environ host environ) depth name w
  = find_and_load host depth name w.
Proof.
  revert name w; induction depth as [|k IH]; intros name w;
    [reflexivity|].
  cbn [find_and_load].
  destruct (mem name (sys_modules w)); [reflexivity|].
  rewrite IH.
  destruct (if String.eqb (parent_of name) "" then (Ok tt, w)
            else find_and_load host k (parent_of name) w)
    as [[u|e] w1]; [|reflexivity].
  destruct (mem name (sys_modules w1)); [reflexivity|].
  change (host_modules (set_environ host environ) name)
    with (host_modules host name).
  destruct (host_modules host name) as [src|]; [|reflexivity].
  rewrite (for_each_ext _ (find_and_load host k) _ _ IH). reflexivity.
Qed.

Lemma import_module_environ (host : Host) (environ : string -> option string)
    (name : string) (w : World) :
  import_module (set_environ host environ) name w = import_module host name w.
Proof.
  rewrite !import_module_cases, find_and_load_environ. reflexivity.
Qed.

Lemma load_tools_from_module_environ (host : Host)
    (environ : string -> option string) (name : string) (w : World) :
  load_tools_from_module (set_environ host environ) name w
  = load_tools_from_module host name w.
Proof.
  unfold load_tools_from_module, try_except, bind.
  rewrite import_module_environ. reflexivity.
Qed.

Lemma load_one_environ (host : Host) (environ : string -> option string)
    (c : nat) (p : string) (w : World) :
  load_one (set_environ host environ) c p w = load_one host c p w.
Proof.
  rewrite !load_one_cases, load_tools_from_module_environ. reflexivity.
Qed.

Lemma auto_discover_environ (host : Host) (environ : string -> option string)
    (w : World) :
  auto_discover_and_load_tools (set_environ host environ) w
  = auto_discover_and_load_tools host w.
Proof.
  unfold auto_discover_and_load_tools, bind.
  rewrite !discover_tool_modules_cases, import_module_environ.
  change (host_listdir (set_environ host environ))
    with (host_listdir host).
  assert (Hl : forall paths w',
             load_tool_modules (set_environ host environ) (Some paths) w'
             = load_tool_modules host (Some paths) w').
  { intros paths w'. rewrite !load_tool_modules_cases. cbv zeta.
    rewrite (for_fold_ext _ (load_one host) _ _ _
               (load_one_environ host environ)).
    reflexivity. }
  destruct (import_module host "app.tools" w) as [[package|e] w1].
  - destruct (fst (getfile "app.tools" package w)) as [file|e].
    + destruct (host_listdir host (dirname file)) as [files|e].
      * cbv zeta. apply Hl.
      * unfold discovery_handler. destruct (discovery_catches e);
          [apply Hl | reflexivity].
    + unfold discovery_handler. destruct (discovery_catches e);
        [apply Hl | reflexivity].
  - unfold discovery_handler. destruct (discovery_catches e);
      [apply Hl | reflexivity].
Qed.

(** C3, as the code has it.  With [MCP_TOOL_MODULES] set,
    [load_tool_modules] called without a list attempts the modules named in
    the variable, split at the commas and stripped, in order, one call of
    [import_module] each, and lists no directory.  It returns after having
    attempted them all, every attempt having returned or raised an
    Exception; or it stops at the first attempt that raises something that
    is no Exception, and raises that.  [auto_discover_and_load_tools] does
    not read the environment: whatever the variables are, it does the
    same. *)
Theorem load_tool_modules_reads_environment :
  (forall (host : Host) (w : World) (value : string),
     host_environ host "MCP_TOOL_MODULES" = Some value ->
     let r := load_tool_modules host None w in
     listdirs_of (trace (snd r)) = listdirs_of (trace w)
     /\ exists attempted rest,
          configured_paths value = (attempted ++ rest)%list
          /\ imports_of (trace (snd r))
             = (imports_of (trace w) ++ map strip attempted)%list
          /\ match fst r with
             | Ok _ =>
                 rest = []
                 /\ Forall survivable
                      (load_attempts host (configured_paths value) w)
             | Raise e =>
                 isinstance e Exception = false
                 /\ exists outs,
                      load_attempts host attempted w
                      = (outs ++ [Raise e])%list
                      /\ Forall survivable outs
             end)
  /\ (forall (host : Host) (environ : string -> option string) (w : World),
        auto_discover_and_load_tools (set_environ host environ) w
        = auto_discover_and_load_tools host w).
Proof.
  split.
  - intros host w value Hv r. subst r.
    rewrite load_tool_modules_cases. cbv zeta.
    unfold environ_get. rewrite Hv. fold (configured_paths value).
    destruct (load_loop_trace host (configured_paths value) 0 w)
      as (Hl & attempted & rest & Hp & Hi & Hr).
    destruct (for_fold (configured_paths value) (load_one host) 0 w)
      as [[n|e] w1]; cbn [fst snd] in Hl, Hi, Hr |- *.
    + split.
      * unfold emit. cbn [trace]. rewrite listdirs_of_app.
        cbn [listdirs_of]. rewrite app_nil_r. exact Hl.
      * exists attempted, rest. split; [exact Hp|]. split; [|exact Hr].
        unfold emit. cbn [trace]. rewrite imports_of_app.
        cbn [imports_of]. rewrite app_nil_r. exact Hi.
    + split; [exact Hl|]. exists attempted, rest. auto.
  - intros host environ w. apply auto_discover_environ.
Qed.

Lemma load_tool_modules_reads_environment_witness :
  let r := load_tool_modules host_override None started in
  host_environ host_override "MCP_TOOL_MODULES" = Some "pkg.only"
  /\ listdirs_of (trace (snd r)) = []
  /\ imports_of (trace (snd r)) = ["pkg.only"].
Proof.
  intros r.
  destruct (proj1 load_tool_modules_reads_environment host_override started
              "pkg.only") as (Hl & _); [reflexivity|].
  split; [reflexivity|]. split; [exact Hl | reflexivity].
Defined.

(** C3 as stated fails: with [MCP_TOOL_MODULES] set to "pkg.only" the
    entry point still lists the directory of [app.tools] and imports the
    modules found there, and never imports [pkg.only]. *)
Lemma auto_discover_ignores_environment :
  let r := auto_discover_and_load_tools host_override started in
  host_environ host_override "MCP_TOOL_MODULES" = Some "pkg.only"
  /\ listdirs_of (trace (snd r)) = ["/srv/app/tools"]
  /\ imports_of (trace (snd r))
     = ["app.tools"; "app.tools.a"; "app.tools.b"].
Proof. repeat split; reflexivity. Qed.

(** C4.  When discovery returns [module_paths] and no load attempt raises
    what [except Exception] does not catch, the entry point returns the
    number of attempts in which [load_tools_from_module] did not raise,
    whether or not the module registered a tool.  For the namespace with
    one tagged function in [a.py] and none in [b.py] both attempts return
    normally, the value is 2, and the registry holds [foo] only. *)
Theorem auto_discover_and_load_tools_counts_attempts :
  (forall (host : Host) (w w1 : World) (module_paths : list string),
     discover_tool_modules host "app.tools" w = (Ok module_paths, w1) ->
     Forall survivable (load_attempts host module_paths w1) ->
     fst (auto_discover_and_load_tools host w)
     = Ok (List.length
             (filter not_raised (load_attempts host module_paths w1))))
  /\ (let r := auto_discover_and_load_tools host_ab started in
      fst r = Ok 2
      /\ registered_tools (snd r) = [("foo", a_foo)]
      /\ load_attempts host_ab ["app.tools.a"; "app.tools.b"]
           (snd (discover_tool_modules host_ab "app.tools" started))
         = [Ok tt; Ok tt]).
Proof.
  split.
  - intros host w w1 module_paths Hd Hs.
    unfold auto_discover_and_load_tools, bind. rewrite Hd.
    rewrite load_tool_modules_cases. cbv zeta.
    pose proof (load_loop_count host module_paths 0 w1 Hs) as Hc.
    destruct (for_fold module_paths (load_one host) 0 w1) as [[n|e] w2];
      simpl in Hc |- *; [exact Hc | discriminate].
  - repeat split; reflexivity.
Qed.

Lemma auto_discover_and_load_tools_counts_attempts_witness :
  exists w1,
    discover_tool_modules host_ab "app.tools" started
    = (Ok ["app.tools.a"; "app.tools.b"], w1)
    /\ Forall survivable
         (load_attempts host_ab ["app.tools.a"; "app.tools.b"] w1)
    /\ fst (auto_discover_and_load_tools host_ab started)
       = Ok (List.length
               (filter not_raised
                  (load_attempts host_ab ["app.tools.a"; "app.tools.b"] w1))).
Proof.
  eexists. split; [reflexivity|].
  assert (Hs : Forall survivable
                 (load_attempts host_ab ["app.tools.a"; "app.tools.b"]
                    (snd (discover_tool_modules host_ab "app.tools"
                            started)))).
  { repeat constructor. }
  split; [exact Hs|].
  apply (proj1 auto_discover_and_load_tools_counts_attempts host_ab started
           _ ["app.tools.a"; "app.tools.b"]); [reflexivity | exact Hs].
Defined.

End LoaderClaims.

(* ================================================================== *)
(** ** The loader: which attributes of a module are registered *)
(* ================================================================== *)

Section RegistrationLoop.
Import PyStr Py Runtime ToolRegistry ToolLoader Spec Registrations.
Variable host : Host.

Lemma dict_get_set_inv {V} (k k' : string) (v f : V) (d : dict V) :
  dict_get k (dict_set k' v d) = Some f ->
  (k = k' /\ f = v) \/ dict_get k d = Some f.
Proof.
  destruct (string_dec k k') as [->|Hne].
  - rewrite dict_get_set_same. intros H. injection H as <-. now left.
  - rewrite dict_get_set_other by exact Hne. now right.
Qed.

(** The body of the loop over [dir(module)], case by case. *)
Lemma register_if_tool_cases (entry : string * PyObj) (w : World) :
  register_if_tool host entry w =
  if is_tool (snd entry) then
    match register_tool host (snd entry) (declared_name (snd entry)) w with
    | (Ok _, w') => (Ok tt, w')
    | (Raise e, w') => (Raise e, w')
    end
  else (Ok tt, w).
Proof.
  unfold register_if_tool, is_tool, declared_name, bind, ret.
  destruct (obj_tool_definition (snd entry)) as [kwargs|];
    [|now rewrite andb_false_r].
  destruct (obj_callable (snd entry)); [|reflexivity]. simpl.
  destruct (register_tool host (snd entry) (dict_get "name" kwargs) w)
    as [[f|e] w']; reflexivity.
Qed.

(** Whatever a handler the registry holds after the loop, it held it
    before or it is one of the tagged callables the loop went through. *)
Lemma register_loop_sources (attrs : list (string * PyObj)) (w : World)
    (k : string) (f : PyObj) :
  dict_get k (registered_tools
                (snd (for_each attrs (register_if_tool host) w))) = Some f ->
  dict_get k (registered_tools w) = Some f
  \/ In f (filter is_tool (map snd attrs)).
Proof.
  revert w; induction attrs as [|a attrs IH]; intros w; simpl; [now left|].
  unfold bind. rewrite register_if_tool_cases.
  destruct (is_tool (snd a)) eqn:Ht.
  - pose proof (register_tool_registry host (snd a)
                  (declared_name (snd a)) w) as Hreg.
    destruct (register_tool host (snd a) (declared_name (snd a)) w)
      as [[g|e] w1]; simpl in Hreg.
    + intros H. apply IH in H. destruct H as [H|H]; [|right; now right].
      rewrite Hreg in H.
      destruct (registered_name (snd a) (declared_name (snd a)));
        [|now left].
      apply dict_get_set_inv in H. destruct H as [[_ ->]|H];
        [right; now left | now left].
    + simpl. rewrite Hreg.
      destruct (registered_name (snd a) (declared_name (snd a)));
        [|now left].
      intros H. apply dict_get_set_inv in H.
      destruct H as [[_ ->]|H]; [right; now left | now left].
  - intros H. apply IH in H. exact H.
Qed.

(** When every tagged callable can be registered, the loop goes through
    and files them all, in order. *)
Lemma register_loop_succeeds (attrs : list (string * PyObj)) (w : World) :
  Forall (registrable host) (filter is_tool (map snd attrs)) ->
  for_each attrs (register_if_tool host) w =
  (Ok tt,
   mkWorld (sys_modules w)
           (file_all (filter is_tool (map snd attrs)) (registered_tools w))
           (tool_modules w)
           (mcp_tools w ++ filter is_tool (map snd attrs))
           (trace w)).
Proof.
  revert w; induction attrs as [|a attrs IH]; intros w Hall;
    simpl in Hall |- *.
  - unfold ret. rewrite app_nil_r. now destruct w.
  - unfold bind. rewrite register_if_tool_cases.
    destruct (is_tool (snd a)) eqn:Ht; try rewrite Ht in Hall.
    + inversion Hall as [|x xs Hx Hrest]; subst.
      destruct Hx as [Hname Hmcp].
      rewrite register_tool_cases.
      unfold tool_name in Hname |- *.
      destruct (registered_name (snd a) (declared_name (snd a))) as [k|]
        eqn:Hk; [|congruence].
      rewrite Hmcp. cbv zeta. rewrite (IH _ Hrest). simpl.
      unfold tool_name. rewrite Hk, <- app_assoc. reflexivity.
    + apply IH. exact Hall.
Qed.

(** The keys [file_all] assigns are present afterwards. *)
Lemma file_all_keys_grow (tools : list PyObj) (d : dict PyObj) (k : string) :
  In k (keys d) -> In k (keys (file_all tools d)).
Proof.
  revert d; induction tools as [|f tools IH]; intros d Hin; simpl;
    [exact Hin|].
  destruct (tool_name f) as [k'|]; [|exact Hin].
  apply IH. destruct (in_dec string_dec k' (keys d)) as [Hk|Hk].
  - now rewrite keys_dict_set_in.
  - rewrite keys_dict_set_new by exact Hk. apply in_or_app. now left.
Qed.

Lemma file_all_registers (tools : list PyObj) (d : dict PyObj) (f : PyObj)
    (k : string) :
  Forall (registrable host) tools ->
  In f tools -> tool_name f = Some k -> In k (keys (file_all tools d)).
Proof.
  revert d; induction tools as [|g tools IH]; intros d Hall Hin Hk;
    [contradiction|].
  inversion Hall as [|x xs Hx Hrest]; subst. destruct Hx as [Hname _].
  simpl.
  destruct (tool_name g) as [kg|] eqn:Hg; [|congruence].
  destruct Hin as [->|Hin].
  - apply file_all_keys_grow. rewrite Hk in Hg. injection Hg as <-.
    apply dict_get_in_keys with f. apply dict_get_set_same.
  - now apply IH.
Qed.

(** With distinct names, each tool is the handler under its name. *)
Lemma file_all_get_other (tools : list PyObj) (d : dict PyObj) (k : string) :
  ~ In (Some k) (map tool_name tools) ->
  Forall (registrable host) tools ->
  dict_get k (file_all tools d) = dict_get k d.
Proof.
  revert d; induction tools as [|g tools IH]; intros d Hn Hall; simpl;
    [reflexivity|].
  inversion Hall as [|x xs Hx Hrest]; subst. destruct Hx as [Hname _].
  destruct (tool_name g) as [kg|] eqn:Hg; [|reflexivity].
  simpl in Hn. rewrite IH; [|tauto|exact Hrest].
  apply dict_get_set_other. intros ->. tauto.
Qed.

Lemma file_all_get (tools : list PyObj) (d : dict PyObj) (f : PyObj)
    (k : string) :
  Forall (registrable host) tools ->
  NoDup (map tool_name tools) ->
  In f tools -> tool_name f = Some k ->
  dict_get k (file_all tools d) = Some f.
Proof.
  revert d; induction tools as [|g tools IH]; intros d Hall Hnd Hin Hk;
    [contradiction|].
  inversion Hall as [|x xs Hg Hrest]; subst.
  inversion Hnd as [|y ys Hny Hnd']; subst. simpl.
  destruct Hin as [->|Hin].
  - rewrite Hk. rewrite Hk in Hny.
    rewrite file_all_get_other by assumption. apply dict_get_set_same.
  - destruct (tool_name g) as [kg|] eqn:Hkg; [|destruct Hg; congruence].
    now apply IH.
Qed.

End RegistrationLoop.

Section LoadCoverage.
Import PyStr Py Runtime ToolRegistry ToolLoader Spec Registrations.
Import Scenarios Inputs.

Lemma import_module_ok (host : Host) (name : string) (w : World)
    (m : ModuleSrc) :
  fst (import_module host name w) = Ok m ->
  host_modules host name = Some m
  /\ startswith "." name = false
  /\ String.eqb name "" = false
  /\ mem name (sys_modules (snd (import_module host name w))) = true.
Proof.
  rewrite import_module_cases.
  destruct (startswith "." name); [discriminate|].
  destruct (String.eqb name ""); [discriminate|].
  pose proof (find_and_load_ok host import_depth name
                (emit (EvImport name) w)) as Hok.
  destruct (find_and_load host import_depth name (emit (EvImport name) w))
    as [[[]|e] w2]; cbn [fst snd] in Hok |- *; [|discriminate].
  destruct (host_modules host name) as [src|]; [|discriminate].
  cbn [fst snd]. intros H. injection H as <-. auto.
Qed.

(** A module that is in [sys.modules] is returned without anything being
    executed. *)
Lemma import_module_cached (host : Host) (name : string) (w : World)
    (m : ModuleSrc) :
  host_modules host name = Some m ->
  startswith "." name = false ->
  String.eqb name "" = false ->
  mem name (sys_modules w) = true ->
  import_module host name w = (Ok m, emit (EvImport name) w).
Proof.
  intros Hm Hd He Hs. rewrite import_module_cases, Hd, He.
  change import_depth with (S 99).
  rewrite find_and_load_cached by exact Hs. now rewrite Hm.
Qed.

(** The successful path of [load_tools_from_module], as one state
    change. *)
Lemma load_tools_from_module_success (host : Host) (w w1 : World)
    (module_name : string) (module : ModuleSrc) :
  import_module host module_name w = (Ok module, w1) ->
  Forall (registrable host) (tools_of module) ->
  load_tools_from_module host module_name w =
  (Ok tt,
   mkWorld (sys_modules w1)
           (file_all (tools_of module) (registered_tools w1))
           (tool_modules w1 ++ [module_name])
           (mcp_tools w1 ++ tools_of module)
           (trace w1 ++ [EvLog INFO ("Loaded tools from module: "
                                     ++ module_name)])).
Proof.
  intros Hi Hall.
  unfold load_tools_from_module, try_except, bind. rewrite Hi.
  unfold append_tool_module at 1.
  unfold tools_of in Hall. rewrite (register_loop_succeeds host _ _ Hall).
  reflexivity.
Qed.

(** X1.  Whatever handler the registry holds under a name after
    [load_tools_from_module], it held it there before, or the handler is an
    attribute of the module that is callable and carries a
    [tool_definition]: nothing else is ever registered, however the call
    ends. *)
Theorem load_tools_from_module_registers_only_tools (host : Host)
    (w : World) (module_name k : string) (f : PyObj) :
  dict_get k (registered_tools
                (snd (load_tools_from_module host module_name w))) = Some f ->
  dict_get k (registered_tools w) = Some f
  \/ exists module attr_name,
       host_modules host module_name = Some module
       /\ In (attr_name, f) (mod_attrs module)
       /\ obj_callable f = true
       /\ obj_tool_definition f <> None.
Proof.
  pose proof (import_module_frame host module_name w) as (Hreg & _).
  pose proof (import_module_ok host module_name w) as Hok.
  unfold load_tools_from_module, try_except, bind.
  destruct (import_module host module_name w) as [[module|e] w1];
    simpl in Hreg, Hok.
  - unfold append_tool_module at 1. set (w2 := mkWorld _ _ _ _ _).
    assert (Hsrc : forall w3,
               registered_tools w3
               = registered_tools
                   (snd (for_each (mod_attrs module)
                                  (register_if_tool host) w2)) ->
               dict_get k (registered_tools w3) = Some f ->
               dict_get k (registered_tools w) = Some f
               \/ exists module0 attr_name,
                    host_modules host module_name = Some module0
                    /\ In (attr_name, f) (mod_attrs module0)
                    /\ obj_callable f = true
                    /\ obj_tool_definition f <> None).
    { intros w3 -> H. apply register_loop_sources in H.
      destruct H as [H|H]; [left; subst w2; simpl in H; now rewrite <- Hreg|].
      right. apply filter_In in H. destruct H as [Hin Ht].
      apply in_map_iff in Hin. destruct Hin as ([an g] & Hg & Hin).
      simpl in Hg. subst g. exists module, an.
      destruct (Hok module eq_refl) as (Hm & _).
      unfold is_tool in Ht. apply andb_true_iff in Ht. destruct Ht as [Hc Hd].
      repeat split; try assumption.
      destruct (obj_tool_definition f); [discriminate|discriminate]. }
    destruct (for_each (mod_attrs module) (register_if_tool host) w2)
      as [[u|e] w3]; simpl in Hsrc.
    + apply (Hsrc _ eq_refl).
    + destruct (isinstance e ImportError); apply (Hsrc _ eq_refl).
  - destruct (isinstance e ImportError); simpl; rewrite Hreg; now left.
Qed.

Lemma load_tools_from_module_registers_only_tools_witness :
  dict_get "foo"
    (registered_tools
       (snd (load_tools_from_module host_ab "app.tools.a" started)))
  = Some a_foo
  /\ (dict_get "foo" (registered_tools started) = Some a_foo
      \/ exists module attr_name,
           host_modules host_ab "app.tools.a" = Some module
           /\ In (attr_name, a_foo) (mod_attrs module)
           /\ obj_callable a_foo = true
           /\ obj_tool_definition a_foo <> None).
Proof.
  split; [reflexivity|].
  apply (load_tools_from_module_registers_only_tools host_ab started
           "app.tools.a" "foo" a_foo).
  reflexivity.
Defined.

(** X2.  When the module imports and each of its tagged callables has a
    name to be filed under and is accepted by the dispatch surface,
    [load_tools_from_module] returns normally, records the module, forwards
    the tagged callables in [dir()] order, and, their names being distinct,
    leaves each of them in the registry under its name. *)
Theorem load_tools_from_module_registers_tools (host : Host) (w : World)
    (module_name : string) (module : ModuleSrc) :
  fst (import_module host module_name w) = Ok module ->
  Forall (registrable host) (tools_of module) ->
  NoDup (map tool_name (tools_of module)) ->
  exists w',
    load_tools_from_module host module_name w = (Ok tt, w')
    /\ tool_modules w' = (tool_modules w ++ [module_name])%list
    /\ mcp_tools w' = (mcp_tools w ++ tools_of module)%list
    /\ Forall (fun f => exists k, tool_name f = Some k
                        /\ dict_get k (registered_tools w') = Some f)
              (tools_of module).
Proof.
  intros Hi Hall Hnd.
  pose proof (import_module_frame host module_name w) as (_ & Htm & Hmcp & _).
  destruct (import_module host module_name w) as [r w1] eqn:Himp.
  simpl in Hi, Htm, Hmcp. subst r.
  rewrite (load_tools_from_module_success host w w1 module_name module
             Himp Hall).
  eexists. split; [reflexivity|]. simpl. rewrite Htm, Hmcp.
  split; [reflexivity|]. split; [reflexivity|].
  apply Forall_forall. intros f Hf.
  pose proof Hall as Hall'. rewrite Forall_forall in Hall'.
  destruct (Hall' f Hf) as [Hname _].
  destruct (tool_name f) as [k|] eqn:Hk; [|congruence].
  exists k. split; [reflexivity|].
  now apply (file_all_get host).
Qed.

Lemma load_tools_from_module_registers_tools_witness :
  exists w',
    load_tools_from_module host_ab "app.tools.a" started = (Ok tt, w')
    /\ mcp_tools w' = [a_foo].
Proof.
  destruct (load_tools_from_module_registers_tools host_ab started
              "app.tools.a" mod_a) as (w' & H1 & _ & H2 & _).
  - reflexivity.
  - repeat constructor; discriminate.
  - repeat constructor. intros [].
  - exists w'. split; [exact H1 | exact H2].
Defined.

End LoadCoverage.

Section LoaderErrors.
Import PyStr Py Runtime ToolRegistry ToolLoader Spec Registrations.
Import Scenarios Inputs.

Lemma load_tools_from_module_import_raises (host : Host) (w : World)
    (module_name : string) (e : exn) :
  fst (import_module host module_name w) = Raise e ->
  fst (load_tools_from_module host module_name w)
  = (if isinstance e ImportError then Ok tt else Raise e)
  /\ registered_tools (snd (load_tools_from_module host module_name w))
     = registered_tools w.
Proof.
  intros Hi.
  pose proof (import_module_frame host module_name w) as (Hreg & _).
  unfold load_tools_from_module, try_except, bind.
  destruct (import_module host module_name w) as [r w1].
  simpl in Hi, Hreg. subst r.
  destruct (isinstance e ImportError); simpl; auto.
Qed.

(** X3.  In the loop of [load_tool_modules], a module whose import raises
    an ImportError counts as loaded, because [load_tools_from_module] has
    swallowed the error; a module whose import raises any other Exception
    does not count.  Either way the loop goes on and the registry is
    untouched. *)
Theorem load_one_counts_swallowed_import_errors (host : Host) (c : nat)
    (module_path : string) (w : World) (e : exn) :
  fst (import_module host (strip module_path) w) = Raise e ->
  isinstance e Exception = true ->
  fst (load_one host c module_path w)
  = Ok (if isinstance e ImportError then c + 1 else c)
  /\ registered_tools (snd (load_one host c module_path w))
     = registered_tools w.
Proof.
  intros Hi He.
  destruct (load_tools_from_module_import_raises host w (strip module_path)
              e Hi) as [Hf Hr].
  rewrite load_one_cases.
  destruct (load_tools_from_module host (strip module_path) w) as [r w1].
  simpl in Hf, Hr. subst r.
  destruct (isinstance e ImportError); [now split|].
  rewrite He. now split.
Qed.

Lemma load_one_counts_swallowed_import_errors_witness :
  fst (load_one host_ab 0 "app.tools.missing" started) = Ok 1
  /\ fst (load_one host_ab 0 " " started) = Ok 0.
Proof.
  split.
  - apply (load_one_counts_swallowed_import_errors host_ab 0
             "app.tools.missing" started
             (Exn ModuleNotFoundError "No module named 'app.tools.missing'"));
      reflexivity.
  - apply (load_one_counts_swallowed_import_errors host_ab 0 " " started
             (Exn ValueError "Empty module name")); reflexivity.
Defined.

Lemma load_loop_outcome (host : Host) (paths : list string) (c : nat)
    (w : World) :
  match fst (for_fold paths (load_one host) c w) with
  | Ok n => c <= n /\ n <= c + List.length paths
  | Raise e => isinstance e Exception = false
  end.
Proof.
  revert c w; induction paths as [|p paths IH]; intros c w; simpl.
  - lia.
  - unfold bind. rewrite load_one_cases.
    destruct (load_tools_from_module host (strip p) w) as [[u|e] w1].
    + specialize (IH (c + 1) w1).
      destruct (fst (for_fold paths (load_one host) (c + 1) w1));
        [lia | exact IH].
    + destruct (isinstance e Exception) eqn:He; [|exact He].
      specialize (IH c (emit (EvLog ERROR ("Failed to load tool module "
                                           ++ p ++ ": " ++ exn_str e)) w1)).
      destruct (fst (for_fold paths (load_one host) c _)); [lia | exact IH].
Qed.

(** X4.  [load_tool_modules] never raises an Exception: it returns a count
    that is at most the number of module paths, or lets through something
    that [except Exception] does not catch (a SystemExit or
    KeyboardInterrupt raised while a module is loaded). *)
Theorem load_tool_modules_raises_no_exception (host : Host)
    (module_paths : list string) (w : World) :
  match fst (load_tool_modules host (Some module_paths) w) with
  | Ok n => n <= List.length module_paths
  | Raise e => isinstance e Exception = false
  end.
Proof.
  rewrite load_tool_modules_cases. cbv zeta.
  pose proof (load_loop_outcome host module_paths 0 w) as H.
  destruct (for_fold module_paths (load_one host) 0 w) as [[n|e] w1];
    simpl in H |- *; [lia | exact H].
Qed.

(** X5.  When the dispatch surface rejects a handler, [register_tool]
    raises its exception, but the handler is already in the registry under
    its name, and the dispatch surface has not received it. *)
Theorem register_tool_rejected_stays_registered (host : Host) (w : World)
    (func : PyObj) (name : option string) (k : string) (e : exn) :
  registered_name func name = Some k ->
  host_mcp_tool host func = Some e ->
  let r := register_tool host func name w in
  fst r = Raise e
  /\ dict_get k (registered_tools (snd r)) = Some func
  /\ mcp_tools (snd r) = mcp_tools w.
Proof.
  intros Hk He r. subst r. rewrite register_tool_cases, Hk, He. simpl.
  split; [reflexivity|]. split; [apply dict_get_set_same | reflexivity].
Qed.

Lemma register_tool_rejected_stays_registered_witness :
  let r := register_tool host_strict lambda_obj None init in
  raised (fst r) = true
  /\ dict_get "<lambda>" (registered_tools (snd r)) = Some lambda_obj
  /\ mcp_tools (snd r) = [].
Proof.
  intros r.
  destruct (register_tool_rejected_stays_registered host_strict init
              lambda_obj None "<lambda>"
              (Exn ValueError "You must provide a name for lambda functions"))
    as (H1 & H2 & H3); [reflexivity | reflexivity |].
  subst r. rewrite H1. split; [reflexivity|]. split; assumption.
Defined.

(** X6.  A callable without [__name__] that is registered with the name
    omitted or empty makes [register_tool] raise an AttributeError before
    anything is stored: registry, dispatch surface and trace are as
    before. *)
Theorem register_tool_needs_a_name (host : Host) (w : World) (func : PyObj)
    (name : option string) :
  obj_name func = None ->
  name = None \/ name = Some "" ->
  exists msg,
    register_tool host func name w = (Raise (Exn AttributeError msg), w).
Proof.
  intros Hn Hname. rewrite register_tool_cases.
  assert (Hr : registered_name func name = None).
  { destruct Hname as [->| ->]; simpl; exact Hn. }
  rewrite Hr. eexists. reflexivity.
Qed.

Lemma register_tool_needs_a_name_witness :
  exists msg,
    register_tool host_ab partial_obj (Some "") started
    = (Raise (Exn AttributeError msg), started).
Proof.
  apply (register_tool_needs_a_name host_ab started partial_obj (Some ""));
    [reflexivity | now right].
Defined.

End LoaderErrors.

Section Reload.
Import PyStr Py Runtime ToolRegistry ToolLoader Spec Registrations.
Import Scenarios Inputs.

Lemma dict_get_absent {V} (k : string) (d : dict V) :
  ~ In k (keys d) -> dict_get k d = None.
Proof.
  induction d as [|[k' v] d IH]; simpl; [reflexivity|].
  intros Hn. destruct (String.eqb k' k) eqn:E.
  - apply String.eqb_eq in E. tauto.
  - apply IH. tauto.
Qed.

(** Two dictionaries with the same keys in the same order, none twice, and
    the same value under every key are the same dictionary. *)
Lemma dict_ext {V} (d1 d2 : dict V) :
  NoDup (keys d1) -> keys d1 = keys d2 ->
  (forall k, dict_get k d1 = dict_get k d2) -> d1 = d2.
Proof.
  revert d2; induction d1 as [|[k v] d1 IH]; intros [|[k2 v2] d2] Hnd Hk Hg;
    try discriminate; [reflexivity|].
  simpl in Hk. injection Hk as <- Hk.
  inversion Hnd as [|x xs Hnin Hnd']; subst.
  pose proof (Hg k) as Hgk. simpl in Hgk. rewrite String.eqb_refl in Hgk.
  injection Hgk as <-. f_equal. apply IH; [exact Hnd' | exact Hk|].
  intros k'. specialize (Hg k'). simpl in Hg.
  destruct (String.eqb k k') eqn:E; [|exact Hg].
  apply String.eqb_eq in E. subst k'.
  rewrite !dict_get_absent; [reflexivity | now rewrite <- Hk | exact Hnin].
Qed.

Lemma file_all_NoDup (tools : list PyObj) (d : dict PyObj) :
  NoDup (keys d) -> NoDup (keys (file_all tools d)).
Proof.
  revert d; induction tools as [|f tools IH]; intros d Hnd; simpl;
    [exact Hnd|].
  destruct (tool_name f); [|exact Hnd]. apply IH. now apply dict_set_NoDup.
Qed.

Lemma file_all_keys_same (tools : list PyObj) (d : dict PyObj) :
  (forall f k, In f tools -> tool_name f = Some k -> In k (keys d)) ->
  keys (file_all tools d) = keys d.
Proof.
  revert d; induction tools as [|f tools IH]; intros d Hin; simpl;
    [reflexivity|].
  destruct (tool_name f) as [k|] eqn:Hk; [|reflexivity].
  assert (Hkd : In k (keys d)) by (apply (Hin f); [now left | exact Hk]).
  rewrite IH.
  - now apply keys_dict_set_in.
  - intros g kg Hg Hkg. rewrite keys_dict_set_in by exact Hkd.
    apply (Hin g); [now right | exact Hkg].
Qed.

(** Filing the same tools into two dictionaries levels every key the tools
    assign. *)
Lemma file_all_get_agree (host : Host) (tools : list PyObj)
    (d1 d2 : dict PyObj) (k : string) :
  Forall (registrable host) tools ->
  dict_get k d1 = dict_get k d2 \/ In (Some k) (map tool_name tools) ->
  dict_get k (file_all tools d1) = dict_get k (file_all tools d2).
Proof.
  revert d1 d2; induction tools as [|g tools IH]; intros d1 d2 Hall H; simpl.
  - destruct H as [H|[]]. exact H.
  - inversion Hall as [|x xs Hx Hrest]; subst. destruct Hx as [Hname _].
    destruct (tool_name g) as [kg|] eqn:Hg; [|congruence].
    apply IH; [exact Hrest|].
    destruct (string_dec k kg) as [->|Hne].
    + left. now rewrite !dict_get_set_same.
    + rewrite !dict_get_set_other by exact Hne.
      destruct H as [H|[H|H]]; [now left | congruence | now right].
Qed.

Lemma file_all_idempotent (host : Host) (tools : list PyObj)
    (d : dict PyObj) :
  Forall (registrable host) tools -> NoDup (keys d) ->
  file_all tools (file_all tools d) = file_all tools d.
Proof.
  intros Hall Hnd. apply dict_ext.
  - apply file_all_NoDup. now apply file_all_NoDup.
  - apply file_all_keys_same. intros f k Hf Hk.
    now apply (file_all_registers host tools d f k).
  - intros k.
    assert (Hdec : forall a b : option string, {a = b} + {a <> b})
      by (decide equality; apply string_dec).
    destruct (in_dec Hdec (Some k) (map tool_name tools)) as [Hin|Hn].
    + apply (file_all_get_agree host); [exact Hall | now right].
    + rewrite (file_all_get_other host tools (file_all tools d) k Hn Hall).
      reflexivity.
Qed.

(** X7.  Loading a module a second time, after a load in which every
    tagged callable was registered, executes no module code again and
    leaves the registry exactly as the first load left it; the module is
    recorded a second time and its tools are forwarded to the dispatch
    surface a second time. *)
Theorem load_tools_from_module_twice (host : Host) (w : World)
    (module_name : string) (module : ModuleSrc) :
  fst (import_module host module_name w) = Ok module ->
  Forall (registrable host) (tools_of module) ->
  NoDup (keys (registered_tools w)) ->
  let w1 := snd (load_tools_from_module host module_name w) in
  let r2 := load_tools_from_module host module_name w1 in
  fst r2 = Ok tt
  /\ registered_tools (snd r2) = registered_tools w1
  /\ (forall m, execs_of m (trace (snd r2)) = execs_of m (trace w1))
  /\ tool_modules (snd r2) = (tool_modules w1 ++ [module_name])%list
  /\ mcp_tools (snd r2) = (mcp_tools w1 ++ tools_of module)%list.
Proof.
  intros Hi Hall Hnd w1 r2. subst r2 w1.
  destruct (import_module_ok host module_name w module Hi)
    as (Hm & Hdot & Hne & Hmem).
  pose proof (import_module_frame host module_name w) as (Hreg & _).
  destruct (import_module host module_name w) as [r wi] eqn:Himp.
  simpl in Hi, Hmem, Hreg. subst r.
  rewrite (load_tools_from_module_success host w wi module_name module
             Himp Hall).
  cbn [snd]. set (w1 := mkWorld _ _ _ _ _).
  assert (Hc : import_module host module_name w1
               = (Ok module, emit (EvImport module_name) w1)).
  { apply import_module_cached; try assumption. }
  rewrite (load_tools_from_module_success host w1 _ module_name module
             Hc Hall).
  cbn [fst snd registered_tools tool_modules mcp_tools trace emit].
  split; [reflexivity|]. split; [|split; [|split; reflexivity]].
  - subst w1. cbn [registered_tools].
    apply (file_all_idempotent host); [exact Hall|]. now rewrite Hreg.
  - intros m. rewrite !execs_of_app. simpl. lia.
Qed.

Lemma load_tools_from_module_twice_witness :
  let w1 := snd (load_tools_from_module host_ab "app.tools.a" started) in
  let r2 := load_tools_from_module host_ab "app.tools.a" w1 in
  fst r2 = Ok tt /\ registered_tools (snd r2) = registered_tools w1.
Proof.
  intros w1 r2.
  destruct (load_tools_from_module_twice host_ab started "app.tools.a" mod_a)
    as (H1 & H2 & _).
  - reflexivity.
  - repeat constructor; discriminate.
  - constructor.
  - split; [exact H1 | exact H2].
Defined.

End Reload.

Section DiscoveryCoverage.
Import PyStr Py Runtime ToolRegistry ToolLoader Spec Scenarios.

Lemma app_inv_head_str (p a b : string) : p ++ a = p ++ b -> a = b.
Proof.
  induction p as [|c p IH]; simpl; [auto|].
  intros H. injection H as H. now apply IH.
Qed.

Lemma built_path_injective (package_path f g : string) :
  is_tool_file f = true -> is_tool_file g = true ->
  built_path package_path f = built_path package_path g -> f = g.
Proof.
  intros Hf Hg. apply is_tool_file_spec in Hf, Hg.
  destruct Hf as [[bf ->] _]. destruct Hg as [[bg ->] _].
  unfold built_path. change 3 with (String.length ".py").
  rewrite !slice_to_neg_app. intros H.
  apply app_inv_head_str in H. simpl in H. injection H as ->. reflexivity.
Qed.

Lemma built_paths_NoDup (package_path : string) (files : list string) :
  NoDup files ->
  NoDup (map (built_path package_path) (filter is_tool_file files)).
Proof.
  induction files as [|f files IH]; intros Hnd; simpl; [constructor|].
  inversion Hnd as [|x xs Hnin Hnd']; subst.
  destruct (is_tool_file f) eqn:Hf; [|now apply IH].
  simpl. constructor; [|now apply IH].
  intros Hin. apply in_map_iff in Hin. destruct Hin as (g & Hg & Hgin).
  apply filter_In in Hgin. destruct Hgin as [Hgin Hgt].
  apply built_path_injective in Hg; [|exact Hgt|exact Hf].
  subst g. contradiction.
Qed.

(** X8.  A directory listing names no entry twice, and then discovery
    returns no module path twice: two different source files never give the
    same module path. *)
Theorem discover_tool_modules_no_duplicates (host : Host)
    (package_path : string) (w : World) :
  (forall dir files, host_listdir host dir = Ok files -> NoDup files) ->
  match fst (discover_tool_modules host package_path w) with
  | Ok found => NoDup found
  | Raise _ => True
  end.
Proof.
  intros Hls. rewrite discover_tool_modules_cases.
  assert (Hh : forall e w1,
             match fst (discovery_handler package_path e w1) with
             | Ok found => NoDup found
             | Raise _ => True
             end).
  { intros e w1. unfold discovery_handler.
    destruct (discovery_catches e); simpl; [constructor | exact I]. }
  destruct (import_module host package_path w) as [[package|e] w1];
    [|apply Hh].
  destruct (fst (getfile package_path package w)) as [file|e]; [|apply Hh].
  destruct (host_listdir host (dirname file)) as [files|e] eqn:Hl;
    [|apply Hh].
  simpl. apply built_paths_NoDup. now apply (Hls (dirname file)).
Qed.

Lemma discover_tool_modules_no_duplicates_witness :
  match fst (discover_tool_modules host_ab "app.tools" started) with
  | Ok found => NoDup found
  | Raise _ => True
  end.
Proof.
  apply (discover_tool_modules_no_duplicates host_ab "app.tools" started).
  intros dir files. simpl. unfold tools_listing.
  destruct (String.eqb dir "/srv/app/tools"); [|discriminate].
  intros H. injection H as <-.
  repeat constructor; simpl; intuition discriminate.
Defined.

End DiscoveryCoverage.

(* ================================================================== *)
(** ** app/__init__.py: MCPConfig *)
(* ================================================================== *)

Section ConfigFacts.
Import Runtime Config.
Variable Any : Type.

Lemma dict_get_update (d other : dict Any) (k : string) :
  NoDup (keys other) ->
  dict_get k (dict_update d other)
  = match dict_get k other with
    | Some v => Some v
    | None => dict_get k d
    end.
Proof.
  revert d; induction other as [|[k0 v0] other IH]; intros d Hnd; simpl;
    [reflexivity|].
  inversion Hnd as [|x xs Hnin Hnd']; subst.
  rewrite (IH _ Hnd').
  destruct (String.eqb k0 k) eqn:E.
  - apply String.eqb_eq in E. subst k0.
    rewrite (dict_get_absent k other Hnin). apply dict_get_set_same.
  - destruct (dict_get k other); [reflexivity|].
    apply dict_get_set_other. intros ->.
    rewrite String.eqb_refl in E. discriminate.
Qed.

Lemma keys_update_prefix (d other : dict Any) :
  exists rest, keys (dict_update d other) = (keys d ++ rest)%list.
Proof.
  revert d; induction other as [|[k0 v0] other IH]; intros d; simpl.
  - exists []. now rewrite app_nil_r.
  - destruct (IH (dict_set k0 v0 d)) as [rest Hr]. rewrite Hr.
    destruct (in_dec string_dec k0 (keys d)) as [Hin|Hn].
    + rewrite keys_dict_set_in by exact Hin. now exists rest.
    + rewrite keys_dict_set_new by exact Hn. exists (k0 :: rest).
      now rewrite <- app_assoc.
Qed.

(** X9.  [get_config] after [add_config]: the key just added returns the
    value just added, whatever was there; every other key returns what it
    returned before, and so the default when it was never added. *)
Theorem get_config_after_add_config (self : MCPConfig Any)
    (key key' : string) (value default : Any) :
  get_config Any (add_config Any self key value) key' default
  = if String.eqb key' key then value else get_config Any self key' default.
Proof.
  unfold get_config, add_config. simpl.
  destruct (String.eqb key' key) eqn:E.
  - apply String.eqb_eq in E. subst key'. now rewrite dict_get_set_same.
  - rewrite dict_get_set_other; [reflexivity|].
    intros ->. rewrite String.eqb_refl in E. discriminate.
Qed.

(** X10.  In the dictionary [as_dict] returns, a key of
    [additional_config] carries the additional value, also when it is one of
    "name", "description", "port" and "log_level", whose attribute is then
    hidden; any other key carries the attribute of that name, if there is
    one.  The four attribute keys come first, in that order. *)
Theorem as_dict_additional_config_shadows (self : MCPConfig Any)
    (key : string) :
  NoDup (keys (additional_config Any self)) ->
  dict_get key (as_dict Any self)
  = match dict_get key (additional_config Any self) with
    | Some v => Some v
    | None => base_entry Any self key
    end
  /\ firstn 4 (keys (as_dict Any self))
     = ["name"; "description"; "port"; "log_level"].
Proof.
  intros Hnd. unfold as_dict. split.
  - rewrite dict_get_update by exact Hnd.
    destruct (dict_get key (additional_config Any self)); [reflexivity|].
    unfold base_entry. simpl.
    rewrite !(String.eqb_sym key). reflexivity.
  - destruct (keys_update_prefix
                [("name", name Any self);
                 ("description", description Any self);
                 ("port", port Any self);
                 ("log_level", log_level Any self)]
                (additional_config Any self)) as [rest Hr].
    rewrite Hr. reflexivity.
Qed.

End ConfigFacts.

Lemma as_dict_additional_config_shadows_witness :
  let c := Config.add_config string
             (Config.mkConfig string "MCP-Skeleton" "Generic MCP Server"
                              "9090" "INFO" [])
             "name" "other" in
  NoDup (Runtime.keys (Config.additional_config string c))
  /\ Runtime.dict_get "name" (Config.as_dict string c) = Some "other"
  /\ Config.name string c = "MCP-Skeleton".
Proof.
  intros c.
  assert (Hnd : NoDup (Runtime.keys (Config.additional_config string c))).
  { simpl. constructor; [intros []|constructor]. }
  destruct (as_dict_additional_config_shadows string c "name" Hnd)
    as [H _].
  split; [exact Hnd|]. split; [exact H | reflexivity].
Defined.

(* ================================================================== *)
(** ** app/tools/api_tools.py: more about build_url *)
(* ================================================================== *)

Section BuildUrlCoverage.
Import PyStr ApiTools.

Lemma rstrip_app_run (s : string) (n : nat) :
  rstrip is_slash (s ++ run "/" n) = rstrip is_slash s.
Proof.
  induction s as [|a s IH]; simpl.
  - induction n as [|n IHn]; simpl; [reflexivity|]. now rewrite IHn.
  - now rewrite IH.
Qed.

Lemma lstrip_run_app (s : string) (m : nat) :
  lstrip is_slash (run "/" m ++ s) = lstrip is_slash s.
Proof. induction m as [|m IH]; simpl; [reflexivity | exact IH]. Qed.

Lemma is_absolute_run (s : string) (m : nat) :
  is_absolute s = false -> is_absolute (run "/" m ++ s) = false.
Proof. destruct m; simpl; [auto | reflexivity]. Qed.

Lemma str_app_assoc (s t u : string) : (s ++ t) ++ u = s ++ t ++ u.
Proof. induction s as [|a s IH]; simpl; [reflexivity | now rewrite IH]. Qed.

Lemma is_absolute_app (s t : string) :
  is_absolute s = true -> is_absolute (s ++ t) = true.
Proof.
  unfold is_absolute. rewrite !orb_true_iff, !startswith_spec.
  intros [[r ->]|[r ->]]; [left | right]; exists (r ++ t);
    apply str_app_assoc.
Qed.

(** X11.  A client without a base URL builds, for every endpoint that is
    not itself an absolute http(s) URL, a URL that begins with a single
    slash and has no scheme. *)
Theorem build_url_without_base (self : APIClient) (endpoint : string) :
  base_url self = "" ->
  is_absolute endpoint = false ->
  build_url self endpoint = "/" ++ lstrip is_slash endpoint
  /\ is_absolute (build_url self endpoint) = false
  /\ startswith "//" (build_url self endpoint) = false.
Proof.
  intros Hb Ha. unfold build_url. rewrite Ha, Hb.
  change (rstrip is_slash "" ++ "/" ++ lstrip is_slash endpoint)
    with ("/" ++ lstrip is_slash endpoint).
  split; [reflexivity|]. split; [reflexivity|].
  destruct (startswith "//" ("/" ++ lstrip is_slash endpoint)) eqn:Hs;
    [|reflexivity].
  apply startswith_spec in Hs. destruct Hs as [r Hr].
  simpl in Hr. injection Hr as Hr.
  apply lstrip_head in Hr. discriminate.
Qed.

Lemma build_url_without_base_witness :
  build_url (mkAPIClient "" "" "Authorization") "users" = "/users".
Proof.
  destruct (build_url_without_base (mkAPIClient "" "" "Authorization")
              "users") as [H _]; [reflexivity | reflexivity |].
  exact H.
Defined.

(** X12.  Extra slashes at the joint do not matter: any number of
    slashes appended to the base URL and any number prepended to an
    endpoint that is not an absolute URL give the same URL. *)
Theorem build_url_ignores_extra_slashes (self : APIClient)
    (endpoint : string) (n m : nat) :
  is_absolute endpoint = false ->
  build_url (mkAPIClient (base_url self ++ run "/" n) (api_key self)
                         (api_key_header self))
            (run "/" m ++ endpoint)
  = build_url self endpoint.
Proof.
  intros Ha. unfold build_url. simpl.
  rewrite (is_absolute_run endpoint m Ha), Ha.
  now rewrite rstrip_app_run, lstrip_run_app.
Qed.

Lemma build_url_ignores_extra_slashes_witness :
  build_url (mkAPIClient "https://api.example.com///" "" "Authorization")
            "//users"
  = build_url (mkAPIClient "https://api.example.com" "" "Authorization")
              "users".
Proof.
  apply (build_url_ignores_extra_slashes
           (mkAPIClient "https://api.example.com" "" "Authorization")
           "users" 3 2).
  reflexivity.
Defined.

(** X13.  When the base URL, trailing slashes apart, is an absolute
    http(s) URL, building a URL from a built URL changes nothing. *)
Theorem build_url_idempotent (self : APIClient) (endpoint : string) :
  is_absolute (rstrip is_slash (base_url self)) = true ->
  build_url self (build_url self endpoint) = build_url self endpoint.
Proof.
  intros Hb.
  assert (Habs : is_absolute (build_url self endpoint) = true).
  { unfold build_url. destruct (is_absolute endpoint) eqn:Ha;
      [exact Ha | now apply is_absolute_app]. }
  generalize dependent (build_url self endpoint). intros built Habs.
  unfold build_url. now rewrite Habs.
Qed.

Lemma build_url_idempotent_witness :
  let c := mkAPIClient "https://api.example.com/" "" "Authorization" in
  build_url c (build_url c "/users") = build_url c "/users".
Proof.
  intros c. apply (build_url_idempotent c "/users"). reflexivity.
Defined.

End BuildUrlCoverage.

(* ================================================================== *)
(** ** app/tools/api_tools.py: the request methods *)
(* ================================================================== *)

Section ApiRequestFacts.
Import PyStr Py ApiTools ApiRequests ApiSpec.
Variable Json : Type.

Lemma raise_for_status_cases (r : ApiResponse Json) :
  (raise_for_status Json r = Ok tt
   <-> api_status Json r < 400 \/ 600 <= api_status Json r)
  /\ forall e, raise_for_status Json r = Raise e -> exn_cls e = HTTPError.
Proof.
  unfold raise_for_status.
  destruct ((400 <=? api_status Json r) && (api_status Json r <? 500))%nat
    eqn:E1.
  - apply andb_true_iff in E1. rewrite Nat.leb_le, Nat.ltb_lt in E1.
    split; [split; [discriminate | lia]|].
    intros e H. now injection H as <-.
  - destruct ((500 <=? api_status Json r) && (api_status Json r <? 600))%nat
      eqn:E2.
    + apply andb_true_iff in E2. rewrite Nat.leb_le, Nat.ltb_lt in E2.
      split; [split; [discriminate | lia]|].
      intros e H. now injection H as <-.
    + rewrite andb_false_iff, Nat.leb_gt, Nat.ltb_ge in E1, E2.
      split; [split; [lia | reflexivity] | discriminate].
Qed.

Lemma respond_reported (url : string) (sent : result (ApiResponse Json)) :
  reported url sent (respond Json url sent).
Proof.
  unfold reported, respond. split; [|split].
  - intros e [->|[(response & -> & Hs)|(response & -> & Hs & Hj)]].
    + reflexivity.
    + rewrite Hs. reflexivity.
    + rewrite Hs, Hj. reflexivity.
  - intros response data -> Hs Hj. rewrite Hs, Hj. reflexivity.
  - intros response _. apply raise_for_status_cases.
Qed.

(** X14.  Each of [get], [post], [put] and [delete] of [APIClient] sends
    its request to the URL [build_url] gives for the endpoint, and turns
    every Exception of the request, of the status check (a 4xx or 5xx
    status) and of the JSON decoding into the error dictionary for that
    URL, logged once; data is returned for a response whose status is no
    client or server error and whose body decodes; nothing but a
    non-Exception is raised. *)
Theorem api_requests_report_errors (self : APIClient) (session : Session Json)
    (endpoint : string) (payload : option Json) :
  reported (build_url self endpoint)
           (session_get Json session (build_url self endpoint) payload)
           (get Json self session endpoint payload)
  /\ reported (build_url self endpoint)
              (session_post Json session (build_url self endpoint) payload)
              (post Json self session endpoint payload)
  /\ reported (build_url self endpoint)
              (session_put Json session (build_url self endpoint) payload)
              (put Json self session endpoint payload)
  /\ reported (build_url self endpoint)
              (session_delete Json session (build_url self endpoint))
              (delete Json self session endpoint).
Proof.
  unfold get, post, put, delete. cbv zeta.
  split; [|split; [|split]]; apply respond_reported.
Qed.

End ApiRequestFacts.

(* ================================================================== *)
(** ** app/tools/web_tools.py: history, links and the tool functions *)
(* ================================================================== *)

Section StripFacts.
Import PyStr.
Variable p : ascii -> bool.

Lemma rstrip_idempotent (s : string) : rstrip p (rstrip p s) = rstrip p s.
Proof.
  induction s as [|a s IH]; simpl; [reflexivity|].
  destruct (rstrip p s) as [|b r] eqn:Hr.
  - destruct (p a) eqn:Ha; simpl; [reflexivity | now rewrite Ha].
  - simpl in IH |- *. destruct (rstrip p r) as [|c r'] eqn:Hr'.
    + destruct (p b); [discriminate | now rewrite IH].
    + now rewrite IH.
Qed.

Lemma rstrip_fixed_tail (a : ascii) (t : string) :
  rstrip p (String a t) = String a t -> t <> "" -> rstrip p t = t.
Proof.
  simpl. destruct (rstrip p t) as [|b r] eqn:Hr.
  - destruct (p a); [discriminate|].
    intros H Hne. injection H as H. congruence.
  - intros H _. now injection H as <-.
Qed.

Lemma rstrip_fixed_lstrip (s : string) :
  rstrip p s = s -> rstrip p (lstrip p s) = lstrip p s.
Proof.
  induction s as [|a s IH]; intros Hs; [reflexivity|].
  cbn [lstrip]. destruct (p a) eqn:Ha; [|exact Hs].
  destruct s as [|b s]; [reflexivity|].
  apply IH. apply (rstrip_fixed_tail a); [exact Hs | discriminate].
Qed.

Lemma lstrip_idempotent (s : string) : lstrip p (lstrip p s) = lstrip p s.
Proof.
  destruct (lstrip p s) as [|a t] eqn:Hl; [reflexivity|].
  apply lstrip_head in Hl. simpl. now rewrite Hl.
Qed.

Lemma lstrip_rstrip_idempotent (s : string) :
  lstrip p (rstrip p (lstrip p (rstrip p s))) = lstrip p (rstrip p s).
Proof.
  rewrite (rstrip_fixed_lstrip (rstrip p s) (rstrip_idempotent s)).
  apply lstrip_idempotent.
Qed.

End StripFacts.

Section NavigatorCoverage.
Import PyStr Py WebTools WebPages WebSpec Scenarios.

(** What a call of [navigate_to] can do to the navigator. *)
Lemma navigate_to_state (net : Net) (nav : WebNavigator) (url : string)
    (base_url : option string) :
  let nav' := snd (fst (navigate_to net nav url base_url)) in
  nav' = nav
  \/ exists full_url,
       nav' = mkNav (Some full_url)
                    (if existsb (String.eqb full_url) (history nav)
                     then history nav
                     else (history nav ++ [full_url])%list).
Proof.
  unfold navigate_to.
  destruct (resolve_url net nav url base_url) as [[full_url|]|e0];
    [|now left..].
  destruct (before_update net full_url) as [[[soup main_content] links]|e].
  - right. exists full_url.
    destruct (page_dict full_url soup main_content links) as [page|e];
      [reflexivity|].
    unfold on_exception. destruct (isinstance e Exception); reflexivity.
  - left. unfold on_exception.
    destruct (isinstance e Exception); reflexivity.
Qed.

Lemma navigate_to_consistent (net : Net) (nav : WebNavigator) (url : string)
    (base_url : option string) :
  consistent nav ->
  consistent (snd (fst (navigate_to net nav url base_url))).
Proof.
  intros [Hnd Hcur].
  destruct (navigate_to_state net nav url base_url) as [->|[full ->]];
    [now split|].
  unfold consistent. simpl.
  destruct (existsb (String.eqb full) (history nav)) eqn:Hx.
  - split; [exact Hnd | now apply existsb_eqb_In].
  - split.
    + apply NoDup_snoc; [exact Hnd|].
      rewrite <- existsb_eqb_In, Hx. discriminate.
    + apply in_or_app. right. now left.
Qed.

(** X15.  After any sequence of [navigate_to] calls on a new navigator,
    whatever their outcomes, the history names no URL twice and the current
    URL, once there is one, is in the history; as long as there is none,
    the history is empty. *)
Theorem visit_all_keeps_navigator_consistent (net : Net)
    (calls : list (string * option string)) :
  consistent (visit_all net calls WebNavigator_init).
Proof.
  assert (H : forall nav, consistent nav ->
                          consistent (visit_all net calls nav)).
  { induction calls as [|[url base] calls IH]; intros nav Hc; simpl;
      [exact Hc|].
    apply IH. now apply navigate_to_consistent. }
  apply H. split; [constructor | reflexivity].
Qed.

(** X16.  The history is append-only: after any sequence of
    [navigate_to] calls the earlier history is still there, in order,
    followed by at most one new URL per call. *)
Theorem visit_all_appends_to_history (net : Net)
    (calls : list (string * option string)) (nav : WebNavigator) :
  exists added,
    history (visit_all net calls nav) = (history nav ++ added)%list
    /\ List.length added <= List.length calls.
Proof.
  revert nav; induction calls as [|[url base] calls IH]; intros nav; simpl.
  - exists []. split; [now rewrite app_nil_r | apply Nat.le_refl].
  - destruct (IH (snd (fst (navigate_to net nav url base))))
      as (added & Hh & Hl).
    rewrite Hh.
    destruct (navigate_to_state net nav url base) as [->|[full ->]].
    + exists added. split; [reflexivity | lia].
    + simpl. destruct (existsb (String.eqb full) (history nav)).
      * exists added. split; [reflexivity | lia].
      * exists (full :: added). split; [now rewrite <- app_assoc|].
        simpl. lia.
Qed.

Lemma extract_links_clean (anchors : list (string * string)) :
  Forall clean_link (WebTools.extract_links anchors).
Proof.
  induction anchors as [|[href txt] anchors IH]; simpl; [constructor|].
  destruct (negb (String.eqb (strip txt) "")) eqn:Et; simpl; [|exact IH].
  destruct (negb (String.eqb href "")) eqn:Eh; simpl; [|exact IH].
  constructor; [|exact IH].
  apply negb_true_iff in Et, Eh. apply String.eqb_neq in Et, Eh.
  unfold clean_link. simpl. repeat split; try assumption.
  unfold strip. apply lstrip_rstrip_idempotent.
Qed.

Lemma Forall_firstn {A} (P : A -> Prop) (n : nat) (l : list A) :
  Forall P l -> Forall P (firstn n l).
Proof.
  revert l; induction n as [|n IH]; intros [|x l] H; simpl;
    try constructor; inversion H; subst; auto.
Qed.

Lemma navigate_to_page_links (net : Net) (nav : WebNavigator) (url : string)
    (base_url : option string) (page : Page) :
  fst (fst (navigate_to net nav url base_url)) = Ok (PageResult page) ->
  exists anchors,
    page_links page = firstn 20 (WebTools.extract_links anchors).
Proof.
  unfold navigate_to.
  destruct (resolve_url net nav url base_url) as [[full_url|]|e0];
    [|discriminate..].
  unfold before_update.
  destruct (fetch_and_parse net full_url) as [soup|e];
    [|unfold on_exception; destruct (isinstance e Exception); discriminate].
  destruct (soup_anchors soup) as [anchors|e];
    [|unfold on_exception; destruct (isinstance e Exception); discriminate].
  set (main_content := tag_or _ _).
  unfold page_dict.
  destruct (match soup_title soup with
            | Some s0 => s0
            | None => Ok (Some "No title")
            end) as [title|e];
    [|unfold on_exception; destruct (isinstance e Exception); discriminate].
  destruct (match main_content with
            | Some t => tag_text t
            | None => Ok ""
            end) as [content|e];
    [|unfold on_exception; destruct (isinstance e Exception); discriminate].
  destruct (match main_content with
            | Some t => tag_html t
            | None => Ok ""
            end) as [html|e];
    [|unfold on_exception; destruct (isinstance e Exception); discriminate].
  cbn [fst]. intros H. injection H as <-. now exists anchors.
Qed.

Lemma navigate_to_links_bound (net : Net) (nav : WebNavigator)
    (url : string) (base_url : option string) (page : Page) :
  fst (fst (navigate_to net nav url base_url)) = Ok (PageResult page) ->
  List.length (page_links page) <= 20.
Proof.
  intros H. apply navigate_to_page_links in H. destruct H as [anchors ->].
  rewrite length_firstn. apply Nat.le_min_l.
Qed.

(** X17.  A page returned by [navigate_to] lists at most twenty links,
    and every one of them has a non-empty target and a non-empty text
    without surrounding whitespace. *)
Theorem navigate_to_links_are_clean (net : Net) (nav : WebNavigator)
    (url : string) (base_url : option string) (page : Page) :
  fst (fst (navigate_to net nav url base_url)) = Ok (PageResult page) ->
  List.length (page_links page) <= 20
  /\ Forall clean_link (page_links page).
Proof.
  intros H. split; [now apply (navigate_to_links_bound net nav url base_url)|].
  apply navigate_to_page_links in H. destruct H as [anchors ->].
  apply Forall_firstn. apply extract_links_clean.
Qed.

Lemma navigate_to_links_are_clean_witness :
  exists page,
    fst (fst (navigate_to net_static WebNavigator_init
                "https://example.com/" None)) = Ok (PageResult page)
    /\ List.length (page_links page) <= 20
    /\ Forall clean_link (page_links page).
Proof.
  eexists. split; [reflexivity|].
  apply (navigate_to_links_are_clean net_static WebNavigator_init
           "https://example.com/" None).
  reflexivity.
Defined.

(** X18.  [current_page] does not move the navigator: when the current
    URL is an absolute http(s) URL that is in the history, the navigator is
    the same after the call, whether the page could be fetched again or
    not. *)
Theorem current_page_keeps_navigator (net : Net) (nav : WebNavigator)
    (u : string) :
  current_url nav = Some u ->
  startswith "http://" u || startswith "https://" u = true ->
  In u (history nav) ->
  snd (fst (current_page net nav)) = nav.
Proof.
  intros Hc Habs Hin. unfold current_page. rewrite Hc.
  destruct (String.eqb u "") eqn:Hu; [reflexivity|].
  assert (Hv : visit nav u = nav).
  { unfold visit. apply existsb_eqb_In in Hin. rewrite Hin.
    destruct nav as [cur hist]. cbn [current_url history] in Hc |- *.
    now rewrite Hc. }
  unfold navigate_to, resolve_url. rewrite Habs. cbn [negb].
  destruct (before_update net u) as [[[soup main_content] links]|e].
  - rewrite Hv.
    destruct (page_dict u soup main_content links) as [page|e];
      [reflexivity|].
    unfold on_exception. destruct (isinstance e Exception); reflexivity.
  - unfold on_exception. destruct (isinstance e Exception); reflexivity.
Qed.

Lemma current_page_keeps_navigator_witness :
  snd (fst (current_page net_static visited_once)) = visited_once.
Proof.
  apply (current_page_keeps_navigator net_static visited_once
           "https://example.com/").
  - reflexivity.
  - reflexivity.
  - simpl. now left.
Defined.

(** X19.  [extract_links] never returns more than twenty links, and on a
    navigator without a current page it returns the empty list without
    fetching anything or changing the navigator. *)
Theorem extract_links_bounded (net : Net) (nav : WebNavigator) :
  match fst (fst (WebPages.extract_links net nav)) with
  | Ok links => List.length links <= 20
  | Raise _ => True
  end
  /\ if truthy (current_url nav) then True
     else WebPages.extract_links net nav = (Ok [], nav, []).
Proof.
  split.
  - unfold WebPages.extract_links, current_page.
    assert (Hn : forall u,
               match
                 fst (fst (let '(r, nav', logged) :=
                             navigate_to net nav u None in
                           (match r with
                            | Ok page_data => Ok (links_of page_data)
                            | Raise e => Raise e
                            end, nav', logged)))
               with
               | Ok links => List.length links <= 20
               | Raise _ => True
               end).
    { intros u.
      pose proof (navigate_to_links_bound net nav u None) as Hp.
      destruct (navigate_to net nav u None) as [[[d|e] nav'] logged];
        simpl in Hp |- *; [|exact I].
      destruct d as [err|err eu|page]; simpl; try lia.
      apply (Hp page eq_refl). }
    destruct (current_url nav) as [u|]; [|simpl; lia].
    destruct (String.eqb u ""); [simpl; lia | apply Hn].
  - unfold WebPages.extract_links, current_page, truthy.
    destruct (current_url nav) as [u|]; [|reflexivity].
    destruct (String.eqb u ""); reflexivity.
Qed.

End NavigatorCoverage.

(* ================================================================== *)
(** ** app/tools/http_tools.py: make_request *)
(* ================================================================== *)

Section HttpFacts.
Import PyStr Py Runtime HttpTools HttpSpec.
Variable Any : Type.
Variable truthy_any : Any -> bool.
Variable Json : Type.
Variable upper : string -> string.



Lemma if_dict_idempotent {V} (d : option (dict V)) :
  if_dict (if_dict d) = if_dict d.
Proof. destruct d as [[|x l]|]; reflexivity. Qed.

(** X21.  An empty dictionary of query parameters, headers or JSON data
    is not passed on: the call is the same as with that argument omitted,
    so [http_get(url, {}, {})] is [http_get(url)]. *)
Theorem make_request_drops_empty_arguments
    (request : string -> string -> Kwargs Any Json
               -> result (HttpResponse Json))
    (method url : string) (params : option (dict Json))
    (headers : option (dict string)) (data : option Any)
    (json_data : option (dict Json)) :
  make_request Any truthy_any Json upper request method url
    params headers data json_data
  = make_request Any truthy_any Json upper request method url
      (if_dict params) (if_dict headers) data (if_dict json_data)
  /\ http_get Any truthy_any Json upper request url (Some []) (Some [])
     = http_get Any truthy_any Json upper request url None None.
Proof.
  split; [|reflexivity].
  unfold make_request. now rewrite !if_dict_idempotent.
Qed.

End HttpFacts.

(* ================================================================== *)
(** ** app/tool_loader.py: the entry point attempts what discovery found *)
(* ================================================================== *)

Section EntryPoint.
Import PyStr Py Runtime ToolRegistry ToolLoader Spec Scenarios.

(** X22.  When discovery returns [module_paths] and no load attempt
    raises what [except Exception] does not catch,
    [auto_discover_and_load_tools] has imported the package "app.tools" and
    then every discovered module path, stripped, once each and in the order
    discovery returned them, and nothing else. *)
Theorem auto_discover_attempts_every_module (host : Host) (w w1 : World)
    (module_paths : list string) :
  discover_tool_modules host "app.tools" w = (Ok module_paths, w1) ->
  Forall survivable (load_attempts host module_paths w1) ->
  imports_of (trace (snd (auto_discover_and_load_tools host w)))
  = (imports_of (trace w) ++ "app.tools" :: map strip module_paths)%list.
Proof.
  intros Hd Hs.
  destruct (discover_trace host "app.tools" w)
    as (evs & tail & Htr & (Hi & _) & Hti & _).
  rewrite Hd in Htr. cbn [snd] in Htr.
  unfold auto_discover_and_load_tools, bind. rewrite Hd.
  rewrite load_tool_modules_cases. cbv zeta.
  pose proof (load_loop_count host module_paths 0 w1 Hs) as Hc.
  destruct (load_loop_trace host module_paths 0 w1)
    as (_ & attempted & rest & Hp & Him & Hr).
  destruct (for_fold module_paths (load_one host) 0 w1) as [[n|e] w2];
    cbn [fst snd] in Hc, Him, Hr |- *; [|discriminate].
  destruct Hr as [-> _].
  rewrite app_nil_r in Hp. subst attempted.
  unfold emit. cbn [trace].
  rewrite imports_of_app. cbn [imports_of]. rewrite app_nil_r, Him, Htr.
  rewrite imports_of_app. cbn [imports_of].
  rewrite imports_of_app, Hi, Hti. cbn [app].
  now rewrite <- app_assoc.
Qed.

Lemma auto_discover_attempts_every_module_witness :
  imports_of (trace (snd (auto_discover_and_load_tools host_ab started)))
  = ["app.tools"; "app.tools.a"; "app.tools.b"].
Proof.
  apply (auto_discover_attempts_every_module host_ab started
           (snd (discover_tool_modules host_ab "app.tools" started))
           ["app.tools.a"; "app.tools.b"]).
  - reflexivity.
  - repeat constructor.
Defined.

End EntryPoint.

(* ================================================================== *)
(** ** What discovery and the loader import and execute *)
(* ================================================================== *)

Section ImportsOfAPass.
Import PyStr Py Runtime ToolRegistry ToolLoader Spec Scenarios.

Lemma occurrences_app (m : string) (a b : list string) :
  occurrences m (a ++ b) = occurrences m a + occurrences m b.
Proof.
  induction a as [|x a IH]; simpl; [reflexivity|]. rewrite IH. lia.
Qed.

(** A successful import of a module that was not in [sys.modules] has
    executed it; an import of a module that was there executes nothing. *)
Lemma import_module_executes (host : Host) (name : string) (w : World)
    (m : ModuleSrc) :
  fst (import_module host name w) = Ok m ->
  mem name (sys_modules w) = false ->
  execs_of name (trace w)
  < execs_of name (trace (snd (import_module host name w))).
Proof.
  rewrite import_module_cases.
  destruct (startswith "." name); [discriminate|].
  destruct (String.eqb name ""); [discriminate|].
  pose proof (find_and_load_ok host import_depth name
                (emit (EvImport name) w)) as Hok.
  destruct (find_and_load_imported host import_depth name
              (emit (EvImport name) w))
    as (evs & _ & _ & _ & Tr & _ & _ & _ & N).
  destruct (find_and_load host import_depth name (emit (EvImport name) w))
    as [[[]|e] w2]; cbn [fst snd] in Hok, Tr, N |- *; [|discriminate].
  intros _ Hn.
  assert (Hex : 0 < execs_of name evs).
  { destruct (N name (Hok eq_refl)) as [H|H]; [|exact H].
    unfold emit in H. cbn [sys_modules] in H. congruence. }
  assert (Htr : trace w2 = (trace w ++ EvImport name :: evs)%list).
  { rewrite Tr. unfold emit. cbn [trace]. now rewrite <- app_assoc. }
  destruct (host_modules host name); cbn [snd]; rewrite Htr, execs_of_app;
    cbn [execs_of]; lia.
Qed.

Lemma import_module_cached_execs (host : Host) (name : string) (w : World)
    (m : string) :
  mem name (sys_modules w) = true ->
  execs_of m (trace (snd (import_module host name w))) = execs_of m (trace w).
Proof.
  intros Hc. rewrite import_module_cases.
  assert (He : execs_of m (trace (emit (EvImport name) w))
               = execs_of m (trace w)).
  { unfold emit. cbn [trace]. rewrite execs_of_app. cbn [execs_of]. lia. }
  destruct (startswith "." name); [exact He|].
  destruct (String.eqb name ""); [exact He|].
  change import_depth with (S 99).
  rewrite find_and_load_cached by exact Hc.
  destruct (host_modules host name); exact He.
Qed.

(** Beyond the import, discovery and a load attempt execute nothing. *)
Lemma discover_execs (host : Host) (package_path : string) (w : World)
    (m : string) :
  execs_of m (trace (snd (discover_tool_modules host package_path w)))
  = execs_of m (trace (snd (import_module host package_path w))).
Proof.
  rewrite discover_tool_modules_cases.
  assert (Hh : forall e w1,
             execs_of m (trace (snd (discovery_handler package_path e w1)))
             = execs_of m (trace w1)).
  { intros e w1. unfold discovery_handler.
    destruct (discovery_catches e); [|reflexivity].
    unfold emit. cbn [snd trace]. rewrite execs_of_app. cbn [execs_of]. lia. }
  assert (Hl : forall d w1,
             execs_of m (trace (emit (EvListdir d) w1))
             = execs_of m (trace w1)).
  { intros d w1. unfold emit. cbn [trace]. rewrite execs_of_app.
    cbn [execs_of]. lia. }
  destruct (import_module host package_path w) as [[package|e] w1];
    cbn [snd]; [|apply Hh].
  destruct (fst (getfile package_path package w)) as [file|e]; [|apply Hh].
  cbv zeta.
  destruct (host_listdir host (dirname file)) as [files|e].
  - unfold emit at 1. cbn [snd trace]. rewrite execs_of_app. cbn [execs_of].
    rewrite Hl. lia.
  - rewrite Hh. apply Hl.
Qed.

Lemma load_tools_from_module_execs (host : Host) (name : string) (w : World)
    (m : string) :
  execs_of m (trace (snd (load_tools_from_module host name w)))
  = execs_of m (trace (snd (import_module host name w))).
Proof.
  unfold load_tools_from_module, try_except, bind.
  assert (Hlog : forall lvl msg w1,
             execs_of m (trace (emit (EvLog lvl msg) w1))
             = execs_of m (trace w1)).
  { intros lvl msg w1. unfold emit. cbn [trace]. rewrite execs_of_app.
    cbn [execs_of]. lia. }
  destruct (import_module host name w) as [[module|e] w1]; cbn [snd].
  - unfold append_tool_module at 1. set (w2 := mkWorld _ _ _ _ _).
    pose proof (for_each_register_trace host (mod_attrs module) w2) as Hf.
    destruct (for_each (mod_attrs module) (register_if_tool host) w2)
      as [[u|e] w3]; cbn [snd] in Hf.
    + unfold logger_info. cbn [snd]. rewrite Hlog, Hf. reflexivity.
    + destruct (isinstance e ImportError).
      * unfold logger_error. cbn [snd]. rewrite Hlog, Hf. reflexivity.
      * cbn [snd]. rewrite Hf. reflexivity.
  - destruct (isinstance e ImportError); [|reflexivity].
    unfold logger_error. cbn [snd]. apply Hlog.
Qed.

(** C2, as the code has it.  Discovery does import: it calls
    [import_module] exactly once, on the package it is given, and on none of
    the module paths it returns.  That call executes the package's
    top-level code whenever the package imports and was not in
    [sys.modules], and nothing when it was; the loader likewise executes
    nothing for a module that is in [sys.modules].  In a pass of
    [auto_discover_and_load_tools] over a listing that names no entry twice,
    the discovered module paths are pairwise distinct and the loader calls
    [import_module] once for each of them, stripped, in order, after the
    package; it stops early only by raising something that is no
    Exception. *)
Theorem discovery_imports_only_the_package :
  (forall (host : Host) (package_path : string) (w : World),
     let r := discover_tool_modules host package_path w in
     imports_of (trace (snd r))
     = (imports_of (trace w) ++ [package_path])%list
     /\ match fst r with
        | Ok found =>
            Forall (fun p => occurrences p (imports_of (trace (snd r)))
                             = occurrences p (imports_of (trace w))) found
        | Raise _ => True
        end)
  /\ (forall (host : Host) (package_path : string) (w : World)
        (package : ModuleSrc),
        fst (import_module host package_path w) = Ok package ->
        mem package_path (sys_modules w) = false ->
        execs_of package_path (trace w)
        < execs_of package_path
            (trace (snd (discover_tool_modules host package_path w))))
  /\ (forall (host : Host) (name : string) (w : World),
        mem name (sys_modules w) = true ->
        forall m,
          execs_of m (trace (snd (discover_tool_modules host name w)))
          = execs_of m (trace w)
          /\ execs_of m (trace (snd (load_tools_from_module host name w)))
             = execs_of m (trace w))
  /\ (forall (host : Host) (w w1 : World) (found : list string),
        discover_tool_modules host "app.tools" w = (Ok found, w1) ->
        (forall dir files, host_listdir host dir = Ok files -> NoDup files) ->
        NoDup found
        /\ exists attempted rest,
             found = (attempted ++ rest)%list
             /\ imports_of (trace (snd (auto_discover_and_load_tools host w)))
                = (imports_of (trace w)
                   ++ "app.tools" :: map strip attempted)%list
             /\ match fst (auto_discover_and_load_tools host w) with
                | Ok _ => rest = []
                | Raise e => isinstance e Exception = false
                end).
Proof.
  split; [|split; [|split]].
  - intros host package_path w r. subst r.
    destruct (discover_trace host package_path w)
      as (evs & tail & Htr & (Hi & _) & Hti & _).
    assert (Him : imports_of (trace (snd (discover_tool_modules host
                                            package_path w)))
                  = (imports_of (trace w) ++ [package_path])%list).
    { rewrite Htr, imports_of_app. cbn [imports_of].
      rewrite imports_of_app, Hi, Hti. reflexivity. }
    split; [exact Him|].
    destruct (fst (discover_tool_modules host package_path w))
      as [found|e] eqn:Hf; [|exact I].
    pose proof (discover_found host package_path w found Hf) as Hfound.
    apply Forall_forall. intros p Hp.
    rewrite Forall_forall in Hfound. destruct (Hfound p Hp) as [x ->].
    rewrite Him, occurrences_app. cbn [occurrences].
    rewrite eqb_longer. lia.
  - intros host package_path w package Hi Hn.
    rewrite discover_execs. now apply (import_module_executes host _ _ package).
  - intros host name w Hc m. split.
    + rewrite discover_execs. now apply import_module_cached_execs.
    + rewrite load_tools_from_module_execs.
      now apply import_module_cached_execs.
  - intros host w w1 found Hd Hls.
    assert (Hnd : NoDup found).
    { pose proof (discover_tool_modules_cases host "app.tools" w) as Hc.
      rewrite Hd in Hc.
      assert (Hh : forall e w2,
                 (Ok found, w1) = discovery_handler "app.tools" e w2 ->
                 found = []).
      { intros e w2. unfold discovery_handler.
        destruct (discovery_catches e); [|discriminate].
        intros H. now injection H as -> _. }
      destruct (import_module host "app.tools" w) as [[package|e] w2];
        [|rewrite (Hh _ _ Hc); constructor].
      destruct (fst (getfile "app.tools" package w)) as [file|e];
        [|rewrite (Hh _ _ Hc); constructor].
      destruct (host_listdir host (dirname file)) as [files|e] eqn:Hl;
        [|rewrite (Hh _ _ Hc); constructor].
      cbv zeta in Hc. injection Hc as -> _.
      apply built_paths_NoDup. now apply (Hls (dirname file)). }
    split; [exact Hnd|].
    destruct (discover_trace host "app.tools" w)
      as (evs & tail & Htr & (Hi & _) & Hti & _).
    rewrite Hd in Htr. cbn [snd] in Htr.
    unfold auto_discover_and_load_tools, bind. rewrite Hd.
    rewrite load_tool_modules_cases. cbv zeta.
    destruct (load_loop_trace host found 0 w1)
      as (_ & attempted & rest & Hp & Him & Hr).
    assert (Hpre : imports_of (trace w1)
                   = (imports_of (trace w) ++ ["app.tools"])%list).
    { rewrite Htr, imports_of_app. cbn [imports_of].
      rewrite imports_of_app, Hi, Hti. reflexivity. }
    exists attempted, rest. split; [exact Hp|].
    destruct (for_fold found (load_one host) 0 w1) as [[n|e] w2];
      cbn [fst snd] in Him, Hr |- *.
    + split; [|now destruct Hr].
      unfold emit. cbn [trace]. rewrite imports_of_app. cbn [imports_of].
      rewrite app_nil_r, Him, Hpre, <- app_assoc. reflexivity.
    + split; [|now destruct Hr].
      rewrite Him, Hpre, <- app_assoc. reflexivity.
Qed.

Lemma discovery_imports_only_the_package_witness :
  let pass := auto_discover_and_load_tools host_ab started in
  mem "app.tools" (sys_modules started) = false
  /\ execs_of "app.tools" (trace started)
     < execs_of "app.tools"
         (trace (snd (discover_tool_modules host_ab "app.tools" started)))
  /\ fst (discover_tool_modules host_ab "app.tools" started)
     = Ok ["app.tools.a"; "app.tools.b"]
  /\ NoDup ["app.tools.a"; "app.tools.b"]
  /\ imports_of (trace (snd pass))
     = ["app.tools"; "app.tools.a"; "app.tools.b"]
  /\ fst pass = Ok 2.
Proof.
  intros pass.
  split; [reflexivity|]. split.
  - apply (proj1 (proj2 discovery_imports_only_the_package) host_ab
             "app.tools" started pkg_tools); reflexivity.
  - split; [reflexivity|]. split; [|split; reflexivity].
    refine (proj1 (proj2 (proj2 (proj2 discovery_imports_only_the_package))
                     host_ab started
                     (snd (discover_tool_modules host_ab "app.tools" started))
                     ["app.tools.a"; "app.tools.b"] _ _)).
    + reflexivity.
    + intros dir files. unfold host_ab, tools_listing. cbn [host_listdir].
      destruct (String.eqb dir "/srv/app/tools"); [|discriminate].
      intros H. injection H as <-.
      repeat constructor; simpl; intuition discriminate.
Defined.

End ImportsOfAPass.
